(** * dump.py: the host side of frida-ios-dump

    A shallow embedding of [dump.py] and the properties of its
    notification handler, path derivation, session opening, progress
    callbacks, archive assembly and completion flag.

    A Python [str] is a sequence of code points, and is modelled as one:
    [string] below is a list of characters, each a code point of any size,
    so that lengths, indices and slices count what Python counts. Python
    [int] values are [Z]. *)

From Stdlib Require Import List ZArith NArith Lia Bool.
From Stdlib Require Import Strings.Byte.
Import ListNotations.

(** ** Python's [str] *)

(** A character: its code point, [ord(c)]. *)
Inductive char : Type := Char (code : N).

Inductive string : Type :=
| EmptyString
| String (c : char) (s : string).

Module Char.

Definition code (c : char) : N := let 'Char k := c in k.

Definition eqb (a b : char) : bool := N.eqb (code a) (code b).

(** Reading and printing of the literals ["/"%char] and ["092"%char]. *)
Definition of_byte (b : byte) : char := Char (Byte.to_N b).
Definition to_byte (c : char) : option byte := Byte.of_N (code c).

End Char.

Module String.

(** [len(s)], as a natural number. *)
Fixpoint length (s : string) : nat :=
  match s with
  | EmptyString => O
  | String _ s' => S (length s')
  end.

(** [s1 + s2] *)
Fixpoint append (s1 s2 : string) : string :=
  match s1 with
  | EmptyString => s2
  | String c s1' => String c (append s1' s2)
  end.

(** [s2.startswith(s1)] *)
Fixpoint prefix (s1 s2 : string) : bool :=
  match s1, s2 with
  | EmptyString, _ => true
  | String _ _, EmptyString => false
  | String a s1', String b s2' => if Char.eqb a b then prefix s1' s2' else false
  end.

(** [s1 == s2] *)
Fixpoint eqb (s1 s2 : string) : bool :=
  match s1, s2 with
  | EmptyString, EmptyString => true
  | String a s1', String b s2' => Char.eqb a b && eqb s1' s2'
  | _, _ => false
  end.

(** Reading and printing of string literals, which are ASCII in this
    file; other characters are written with their code point. *)
Fixpoint of_bytes (bs : list byte) : option string :=
  match bs with
  | [] => Some EmptyString
  | b :: bs' =>
      if (Byte.to_N b <? 128)%N
      then option_map (String (Char.of_byte b)) (of_bytes bs')
      else None
  end.

Fixpoint to_bytes (s : string) : option (list byte) :=
  match s with
  | EmptyString => Some []
  | String c s' =>
      if (Char.code c <? 128)%N
      then match Char.to_byte c, to_bytes s' with
           | Some b, Some bs => Some (b :: bs)
           | _, _ => None
           end
      else None
  end.

End String.

Declare Scope char_scope.
Delimit Scope char_scope with char.
Bind Scope char_scope with char.
String Notation char Char.of_byte Char.to_byte : char_scope.

Declare Scope string_scope.
Delimit Scope string_scope with string.
Bind Scope string_scope with string.
String Notation string String.of_bytes String.to_bytes : string_scope.
Infix "++" := String.append (right associativity, at level 60) : string_scope.
Infix "=?" := String.eqb (at level 70) : string_scope.

Local Open Scope string_scope.
Local Open Scope Z_scope.

(** ** Python string primitives used by the program *)

Module Py.

(** [len(s)] *)
Definition len (s : string) : Z := Z.of_nat (String.length s).

(** [s.startswith(p)] *)
Definition startswith (p s : string) : bool := String.prefix p s.

(** Characters of [s] from position [n] on. *)
Fixpoint skip (n : nat) (s : string) : string :=
  match n, s with
  | O, _ => s
  | S _, EmptyString => EmptyString
  | S n', String _ s' => skip n' s'
  end.

(** [s[i:]]: a negative [i] counts from the end, and both ends are
    clipped to the string. *)
Definition slice_from (i : Z) (s : string) : string :=
  let start := if i <? 0 then Z.max 0 (len s + i) else i in
  skip (Z.to_nat start) s.

(** [s.find(sub)] searched from offset [i] of the original string: the
    lowest index where [sub] starts, or [-1]. *)
Fixpoint find_from (sub s : string) (i : Z) : Z :=
  if startswith sub s then i
  else match s with
       | EmptyString => -1
       | String _ s' => find_from sub s' (i + 1)
       end.

Definition find (sub s : string) : Z := find_from sub s 0.

(** [sub in s] *)
Definition contains (sub s : string) : bool := 0 <=? find sub s.

(** [s.count(sub)] for a [sub] that cannot overlap itself: the number
    of positions at which [sub] starts. *)
Fixpoint occurrences (sub s : string) : nat :=
  (if startswith sub s then 1 else 0)%nat +
  match s with
  | EmptyString => 0%nat
  | String _ s' => occurrences sub s'
  end.

(** [s.rfind(c)] for a one-character [c], searched from offset [i]. *)
Fixpoint rfind_from (c : char) (s : string) (i : Z) : Z :=
  match s with
  | EmptyString => -1
  | String a s' =>
      let r := rfind_from c s' (i + 1) in
      if 0 <=? r then r else if Char.eqb a c then i else -1
  end.

Definition rfind (c : char) (s : string) : Z := rfind_from c s 0.

(** [s.endswith(c)] for a one-character [c]. *)
Fixpoint endswith (c : char) (s : string) : bool :=
  match s with
  | EmptyString => false
  | String a EmptyString => Char.eqb a c
  | String _ s' => endswith c s'
  end.

End Py.

(** ** [os.path] (posixpath) *)

Module os_path.

Definition sep : char := "/"%char.

(** [posixpath.basename]: [i = p.rfind('/') + 1; return p[i:]]. *)
Definition basename (p : string) : string :=
  Py.slice_from (Py.rfind sep p + 1) p.

(** One round of the loop of [posixpath.join]. *)
Definition join2 (path b : string) : string :=
  if Py.startswith (String sep EmptyString) b then b
  else if (path =? "")%string || Py.endswith sep path then path ++ b
  else path ++ String sep EmptyString ++ b.

(** [os.path.join(a, b)] and [os.path.join(a, b, c)]. *)
Definition join (a b : string) : string := join2 a b.
Definition join3 (a b c : string) : string := join2 (join2 a b) c.

End os_path.

(** ** [extract_path] *)

Definition extract_path (origin_path : string) : string :=
  let index := Py.find ".app/" origin_path in
  Py.slice_from (index + 5) origin_path.

(** ** Exceptions and the outcome of a call *)

(** Instances of Python's [Exception], with the text [str(e)] gives for
    the ones raised by libraries. *)
Inductive exn : Type :=
| KeyError (key : string)
| CalledProcessError (msg : string)
| Error (msg : string).

(** [str(e)], as the f-strings of the log lines print it. *)
Definition str_exn (e : exn) : string :=
  match e with
  | KeyError key => "'" ++ key ++ "'"
  | CalledProcessError msg => msg
  | Error msg => msg
  end.

(** What a library call gives back: a value or an [Exception]. *)
Inductive result (A : Type) : Type :=
| Ok (a : A)
| Err (e : exn).
Arguments Ok {A} a.
Arguments Err {A} e.

(** How a function of the program ends: it returns, an [Exception]
    propagates out of it, or [sys.exit] unwinds it ([SystemExit] is not an
    [Exception], so [except Exception] lets it through). *)
Inductive outcome (A : Type) : Type :=
| Return (a : A)
| Raise (e : exn)
| SystemExit (status : string).
Arguments Return {A} a.
Arguments Raise {A} e.
Arguments SystemExit {A} status.

(** ** Data *)

(** An application descriptor of [device.enumerate_applications()]. *)
Record Application : Type := mkApplication {
  identifier : string;
  name : string;
  pid : Z
}.

(** The [payload] of an agent message: each key may be present or not. *)
Record Payload : Type := mkPayload {
  dump : option string;
  path : option string;
  app : option string;
  done : bool
}.

(** A message of the agent; error messages carry no ['payload']. *)
Record Message : Type := mkMessage {
  payload : option Payload
}.

(** One call of a progress callback: [(filename, size, sent)]. *)
Definition report : Type := string * Z * Z.

(** The fields of a [tqdm] bar the program touches. *)
Record tqdm : Type := mkTqdm {
  desc : string;
  total : option Z;
  n : Z;
  closed : bool
}.

(** [tqdm(unit='B', unit_scale=True, unit_divisor=1024, miniters=1)] *)
Definition tqdm_new : tqdm :=
  {| desc := ""; total := None; n := 0; closed := false |}.

Definition set_desc (d : string) (t : tqdm) : tqdm :=
  {| desc := d; total := total t; n := n t; closed := closed t |}.

Definition set_total (z : Z) (t : tqdm) : tqdm :=
  {| desc := desc t; total := Some z; n := n t; closed := closed t |}.

(** [t.update(k)]: the counter advances by [k]. *)
Definition tqdm_update (k : Z) (t : tqdm) : tqdm :=
  {| desc := desc t; total := total t; n := n t + k; closed := closed t |}.

Definition tqdm_close (t : tqdm) : tqdm :=
  {| desc := desc t; total := total t; n := n t; closed := true |}.

(** [FILE_DICT]: a Python [dict] from [str] to [str], in insertion order. *)
Definition dict : Type := list (string * string).

Fixpoint dict_get (k : string) (d : dict) : option string :=
  match d with
  | [] => None
  | (k', v) :: d' => if (k =? k')%string then Some v else dict_get k d'
  end.

(** [d[k] = v]: an existing key keeps its place, a new one goes last. *)
Fixpoint dict_set (k v : string) (d : dict) : dict :=
  match d with
  | [] => [(k, v)]
  | (k', v') :: d' =>
      if (k =? k')%string then (k, v) :: d' else (k', v') :: dict_set k v d'
  end.

(** The commands the program sends to the device, the copy channel and
    the host's file system. *)
Inductive call : Type :=
| ScpGet (src dest : string) (recursive : bool)
| Chmod755 (dest_path : string)
| Move (src dest : string)
| Zip (archive dir cwd : string)
| Rmtree (dir : string)
| EnumerateApplications
| Spawn (argv : list string)
| Attach (pid : Z)
| Resume (pid : Z).

(** ** The libraries and the machine around the program

    frida's device, the [paramiko]/[scp] channel, [shutil], [subprocess]
    and the file system are not part of the program: each is a function
    of an arbitrary [world]. *)
Class Externals : Type := {
  world : Type;
  device : Type;
  session : Type;
  TEMP_DIR : string;                          (* tempfile.gettempdir() *)
  os_getcwd : world -> string;
  (* SCPClient(ssh.get_transport(), progress=..., socket_timeout=60).get:
     the progress reports it makes, then how it ends *)
  scp_get : string -> string -> bool -> world -> (list report * result unit) * world;
  os_path_exists : string -> world -> bool;
  chmod_755 : string -> world -> result unit * world;
  shutil_move : string -> string -> world -> result unit * world;
  zip_qr : string -> string -> string -> world -> result unit * world;
  shutil_rmtree : string -> world -> result unit * world;
  enumerate_applications : device -> world -> result (list Application) * world;
  device_spawn : device -> list string -> world -> result Z * world;
  device_attach : device -> Z -> world -> result session * world;
  device_resume : device -> Z -> world -> result unit * world
}.

(** ** The program *)

Section Program.

Context {E : Externals}.

(** The module's globals, what the program has printed and drawn, the
    commands it has issued, and the world outside. *)
Record state : Type := mkState {
  FILE_DICT : dict;
  FINISHED : bool;              (* threading.Event: is the flag set? *)
  stdout : list string;
  bars : list tqdm;             (* bars the program is done with, oldest first *)
  trace : list call;
  env : world
}.

(** A computation over the state that returns, raises or exits. *)
Definition M (A : Type) : Type := state -> outcome A * state.

Definition ret {A} (a : A) : M A := fun s => (Return a, s).

Definition bind {A B} (m : M A) (k : A -> M B) : M B :=
  fun s =>
    match m s with
    | (Return a, s') => k a s'
    | (Raise e, s') => (Raise e, s')
    | (SystemExit c, s') => (SystemExit c, s')
    end.

Definition raise {A} (e : exn) : M A := fun s => (Raise e, s).

(** [try: body / except Exception as e: handler e]; a handler that
    tells exception classes apart matches on [e]. *)
Definition try_except {A} (body : M A) (handler : exn -> M A) : M A :=
  fun s =>
    match body s with
    | (Raise e, s') => handler e s'
    | r => r
    end.

Notation "x <- c1 ;; c2" := (bind c1 (fun x => c2))
  (at level 61, c1 at next level, right associativity).
Notation "c1 ;; c2" := (bind c1 (fun _ => c2))
  (at level 61, right associativity).

(** *** Primitive effects *)

Definition print (line : string) : M unit :=
  fun s => (Return tt,
            {| FILE_DICT := FILE_DICT s; FINISHED := FINISHED s;
               stdout := stdout s ++ [line]; bars := bars s;
               trace := trace s; env := env s |}).

(** A bar leaves the program's hands in the state [t]. *)
Definition draw (t : tqdm) : M unit :=
  fun s => (Return tt,
            {| FILE_DICT := FILE_DICT s; FINISHED := FINISHED s;
               stdout := stdout s; bars := bars s ++ [t];
               trace := trace s; env := env s |}).

(** [FINISHED.set()] *)
Definition FINISHED_set : M unit :=
  fun s => (Return tt,
            {| FILE_DICT := FILE_DICT s; FINISHED := true;
               stdout := stdout s; bars := bars s;
               trace := trace s; env := env s |}).

(** [FILE_DICT[k]] *)
Definition FILE_DICT_getitem (k : string) : M string :=
  fun s => match dict_get k (FILE_DICT s) with
           | Some v => (Return v, s)
           | None => (Raise (KeyError k), s)
           end.

(** [FILE_DICT[k] = v] *)
Definition FILE_DICT_setitem (k v : string) : M unit :=
  fun s => (Return tt,
            {| FILE_DICT := dict_set k v (FILE_DICT s); FINISHED := FINISHED s;
               stdout := stdout s; bars := bars s;
               trace := trace s; env := env s |}).

(** [FILE_DICT.items()] *)
Definition FILE_DICT_items : M (list (string * string)) :=
  fun s => (Return (FILE_DICT s), s).

(** [payload[k]] for a key that may be missing. *)
Definition getitem (k : string) (v : option string) : M string :=
  match v with
  | Some x => ret x
  | None => raise (KeyError k)
  end.

(** A command [c] to the outside: it is recorded, the world moves on,
    and the call returns or raises. *)
Definition external {A} (c : call) (f : world -> result A * world) : M A :=
  fun s =>
    let (r, w) := f (env s) in
    let s' := {| FILE_DICT := FILE_DICT s; FINISHED := FINISHED s;
                 stdout := stdout s; bars := bars s;
                 trace := trace s ++ [c]; env := w |} in
    match r with
    | Ok a => (Return a, s')
    | Err e => (Raise e, s')
    end.

(** A question to the outside that changes nothing. *)
Definition observe {A} (f : world -> A) : M A :=
  fun s => (Return (f (env s)), s).

(** *** Constants *)

Definition PAYLOAD_DIR : string := "Payload".
Definition PAYLOAD_PATH : string := os_path.join TEMP_DIR PAYLOAD_DIR.

(** *** [progress_bar] *)

Definition progress_bar (filename : string) (size sent : Z) : M unit :=
  let base_name := os_path.basename filename in
  let t := tqdm_new in
  let t := set_desc base_name t in
  let t := set_total size t in
  let t := tqdm_update sent t in
  draw t.

(** The callback is called once per report, in order. *)
Fixpoint report_all (callback : string -> Z -> Z -> M unit) (rs : list report) : M unit :=
  match rs with
  | [] => ret tt
  | (filename, size, sent) :: rs' =>
      callback filename size sent ;; report_all callback rs'
  end.

(** [with SCPClient(ssh.get_transport(), progress=progress, socket_timeout=60) as scp:
       scp.get(src, dest, recursive=recursive)] *)
Definition SCPClient_get (progress : string -> Z -> Z -> M unit)
           (src dest : string) (recursive : bool) : M unit :=
  fun s =>
    let '(rs, r, w) := scp_get src dest recursive (env s) in
    let s' := {| FILE_DICT := FILE_DICT s; FINISHED := FINISHED s;
                 stdout := stdout s; bars := bars s;
                 trace := trace s ++ [ScpGet src dest recursive]; env := w |} in
    match report_all progress rs s' with
    | (Return _, s'') =>
        match r with
        | Ok _ => (Return tt, s'')
        | Err e => (Raise e, s'')
        end
    | other => other
    end.

(** *** [scp_transfer] *)

(** The two [except] clauses: [subprocess.CalledProcessError] first,
    then [Exception]. *)
Definition scp_transfer_error (e : exn) : string :=
  match e with
  | CalledProcessError _ => "Error setting file permissions: " ++ str_exn e
  | _ => "Error during SCP transfer: " ++ str_exn e
  end.

Definition scp_transfer (src dest : string) (recursive : bool) : M unit :=
  try_except
    (print ("Transferring " ++ src ++ " to " ++ dest ++ " via SCP") ;;
     SCPClient_get progress_bar src dest recursive ;;
     (* src is a str, so base_name is src itself *)
     let base_name := src in
     let dest_path := os_path.join dest base_name in
     there <- observe (os_path_exists dest_path) ;;
     if there : bool then
       print ("Changing permissions for " ++ dest_path) ;;
       external (Chmod755 dest_path) (chmod_755 dest_path)
     else ret tt)
    (fun e => print (scp_transfer_error e)).

(** *** [on_message] *)

(** What the nested [progress] closes over: the bar [t] and the cell
    [last_sent[0]]. *)
Record closure : Type := mkClosure {
  t : tqdm;
  last_sent : Z
}.

(** The nested function [progress] of [on_message]. *)
Definition progress (filename : string) (size sent : Z) (c : closure) : closure :=
  let base_name := os_path.basename filename in
  let t1 := set_desc base_name (t c) in
  let t2 := set_total size t1 in
  let t3 := tqdm_update (sent - last_sent c) t2 in
  {| t := t3; last_sent := if size =? sent then 0 else sent |}.

Definition on_message (message : Message) : M unit :=
  let c := {| t := tqdm_new; last_sent := 0 |} in
  (* progress is defined over c, and nothing below calls it *)
  match payload message with
  | Some payload =>
      match dump payload with
      | Some dump_path =>
          scp_transfer dump_path PAYLOAD_PATH false ;;
          origin_path <- getitem "path" (path payload) ;;
          FILE_DICT_setitem (os_path.basename dump_path) (extract_path origin_path)
      | None => ret tt
      end ;;
      match app payload with
      | Some app_path =>
          scp_transfer app_path PAYLOAD_PATH true ;;
          FILE_DICT_setitem "app" (os_path.basename app_path)
      | None => ret tt
      end ;;
      if done payload then FINISHED_set else ret tt
  | None => ret tt
  end ;;
  draw (tqdm_close (t c)).

(** A progress callback with the closure [c] is called once per report;
    the closure after the last call, and the amounts by which the
    counter of the bar moved at each call. *)
Fixpoint progress_all (rs : list report) (c : closure) : closure :=
  match rs with
  | [] => c
  | (filename, size, sent) :: rs' => progress_all rs' (progress filename size sent c)
  end.

Fixpoint increments (rs : list report) (c : closure) : list Z :=
  match rs with
  | [] => []
  | (filename, size, sent) :: rs' =>
      let c' := progress filename size sent c in
      (n (t c') - n (t c)) :: increments rs' c'
  end.

(** The bar [progress_bar] draws for one report. *)
Definition bar_of (r : report) : tqdm :=
  let '(filename, size, sent) := r in
  {| desc := os_path.basename filename; total := Some size; n := sent; closed := false |}.

(** The delivery thread handles the notifications one after another. *)
Fixpoint on_messages (messages : list Message) : M unit :=
  match messages with
  | [] => ret tt
  | m :: rest => on_message m ;; on_messages rest
  end.

(** *** [generate_ipa] *)

(** The double quote of [f'Generating "{ipa_filename}"']. *)
Definition dquote : string := String "034"%char EmptyString.

(** The loop [for key, value in FILE_DICT.items()]. *)
Fixpoint move_items (path app_name : string) (items : list (string * string)) : M unit :=
  match items with
  | [] => ret tt
  | (key, value) :: rest =>
      let src := os_path.join path key in
      let dest := os_path.join3 path app_name value in
      (if negb (key =? "app")%string
       then external (Move src dest) (shutil_move src dest)
       else ret tt) ;;
      move_items path app_name rest
  end.

Definition generate_ipa (path display_name : string) : M unit :=
  let ipa_filename := display_name ++ ".ipa" in
  print ("Generating " ++ dquote ++ ipa_filename ++ dquote) ;;
  try_except
    (app_name <- FILE_DICT_getitem "app" ;;
     items <- FILE_DICT_items ;;
     move_items path app_name items ;;
     cwd <- observe os_getcwd ;;
     let archive := os_path.join cwd ipa_filename in
     external (Zip archive PAYLOAD_DIR TEMP_DIR) (zip_qr archive PAYLOAD_DIR TEMP_DIR) ;;
     external (Rmtree PAYLOAD_PATH) (shutil_rmtree PAYLOAD_PATH))
    (fun e =>
       print ("Error generating IPA: " ++ str_exn e) ;;
       FINISHED_set).

(** *** [get_applications] and [open_target_app] *)

Definition get_applications (dev : device) : M (list Application) :=
  fun s =>
    match external EnumerateApplications (enumerate_applications dev) s with
    | (Raise e, s') =>
        (SystemExit ("Failed to enumerate applications: " ++ str_exn e), s')
    | r => r
    end.

(** The local [pid] starts as the empty string and then holds an [int]. *)
Inductive pid_value : Type :=
| pid_empty
| pid_int (z : Z).

(** [not pid] *)
Definition not_pid (p : pid_value) : bool :=
  match p with
  | pid_empty => true
  | pid_int z => z =? 0
  end.

(** The locals [pid, display_name, bundle_identifier]. *)
Definition target : Type := pid_value * string * string.

(** [app_id == app.identifier or app_id == app.name] *)
Definition matches (app_id : string) (a : Application) : bool :=
  (app_id =? identifier a)%string || (app_id =? name a)%string.

(** [app.pid, app.name, app.identifier], as the loop assigns them. *)
Definition chosen (a : Application) : target :=
  (pid_int (pid a), name a, identifier a).

(** One round of the loop over the applications. *)
Definition scan_step (app_id : string) (acc : target) (a : Application) : target :=
  if matches app_id a then chosen a else acc.

(** The loop, from [pid, display_name, bundle_identifier = '', '', '']. *)
Definition scan (app_id : string) (apps : list Application) : target :=
  fold_left (scan_step app_id) apps (pid_empty, "", "").

Definition log_start_error (e : exn) : M unit :=
  print ("Error starting app: " ++ str_exn e).

(** [spawn], [attach], [resume] inside the [try]; [session] is bound
    once [attach] has returned, so an exception of [resume] leaves it
    bound. *)
Definition spawn_attach_resume (dev : device) (bundle_identifier : string)
  : M (option session) :=
  try_except
    (pid' <- external (Spawn [bundle_identifier]) (device_spawn dev [bundle_identifier]) ;;
     sess <- external (Attach pid') (device_attach dev pid') ;;
     try_except
       (external (Resume pid') (device_resume dev pid') ;; ret (Some sess))
       (fun e => log_start_error e ;; ret (Some sess)))
    (fun e => log_start_error e ;; ret None).

Definition attach_only (dev : device) (z : Z) : M (option session) :=
  try_except
    (sess <- external (Attach z) (device_attach dev z) ;; ret (Some sess))
    (fun e => log_start_error e ;; ret None).

Definition open_target_app (dev : device) (app_id : string)
  : M (option session * string * string) :=
  print ("Starting app " ++ app_id) ;;
  apps <- get_applications dev ;;
  let '(pid, display_name, bundle_identifier) := scan app_id apps in
  sess <- (if not_pid pid
           then spawn_attach_resume dev bundle_identifier
           else match pid with
                | pid_int z => attach_only dev z
                | pid_empty => spawn_attach_resume dev bundle_identifier
                end) ;;
  ret (sess, display_name, bundle_identifier).

(** *** The operations of a run that touch the program's state *)

Inductive operation : Type :=
| op_on_message (message : Message)
| op_scp_transfer (src dest : string) (recursive : bool)
| op_generate_ipa (path display_name : string)
| op_open_target_app (dev : device) (app_id : string)
| op_wait                           (* FINISHED.wait(): the flag is only read *)
| op_main_end.                      (* the FINISHED.set() that ends main *)

Definition run_operation (o : operation) (s : state) : state :=
  match o with
  | op_on_message m => snd (on_message m s)
  | op_scp_transfer src dest r => snd (scp_transfer src dest r s)
  | op_generate_ipa p d => snd (generate_ipa p d s)
  | op_open_target_app dev a => snd (open_target_app dev a s)
  | op_wait => s
  | op_main_end => snd (FINISHED_set s)
  end.

Definition run (os : list operation) (s : state) : state :=
  fold_left (fun s o => run_operation o s) os s.

(** A computation that never clears the completion flag. *)
Definition keeps_FINISHED {A} (m : M A) : Prop :=
  forall s, FINISHED s = true -> FINISHED (snd (m s)) = true.

(** The state when the module has been loaded. *)
Definition initial (w : world) : state :=
  {| FILE_DICT := []; FINISHED := false; stdout := []; bars := [];
     trace := []; env := w |}.

(** The notifications of the agent, as messages. *)
Definition FileReady_binary (dump_path origin_path : string) : Message :=
  {| payload := Some {| dump := Some dump_path; path := Some origin_path;
                        app := None; done := false |} |}.

Definition FileReady_bundle (app_path : string) : Message :=
  {| payload := Some {| dump := None; path := None;
                        app := Some app_path; done := false |} |}.

Definition Completed : Message :=
  {| payload := Some {| dump := None; path := None; app := None; done := true |} |}.

(** Two dictionaries hold the same entries. *)
Definition dict_same (d1 d2 : dict) : Prop :=
  forall k, dict_get k d1 = dict_get k d2.

(** An exception of [spawn], or of [attach], stops the [try] of
    [open_target_app] with [e], in the world [w] left by the enumeration. *)
Definition start_raises (dev : device) (tg : target) (w : world) (e : exn) : Prop :=
  let '(pid, _, bundle_identifier) := tg in
  if not_pid pid then
    (exists w', device_spawn dev [bundle_identifier] w = (Err e, w')) \/
    (exists z w' w'', device_spawn dev [bundle_identifier] w = (Ok z, w') /\
                      device_attach dev z w' = (Err e, w''))
  else
    exists z w', pid = pid_int z /\ device_attach dev z w = (Err e, w').

End Program.

(** ** Concrete machines, to run the program on

    A world that is only a counter of the commands it has received; the
    copy channel works or breaks in the middle of every pull; spawning
    works only for a known bundle identifier, attaching only to a pid that
    exists and is not locked. *)

Definition bench (scp_works : bool) (apps : list Application) (locked : list Z) : Externals :=
  {| world := nat;
     device := unit;
     session := Z;
     TEMP_DIR := "/tmp";
     os_getcwd := fun _ => "/home/user";
     scp_get := fun src _ _ w =>
       if scp_works
       then ([(src, 10, 4); (src, 10, 10)], Ok tt, S w)
       else ([(src, 10, 4)], Err (Error "Connection lost"), S w);
     os_path_exists := fun _ _ => false;
     chmod_755 := fun _ w => (Ok tt, S w);
     shutil_move := fun _ _ w => (Ok tt, S w);
     zip_qr := fun _ _ _ w => (Ok tt, S w);
     shutil_rmtree := fun _ w => (Ok tt, S w);
     enumerate_applications := fun _ w => (Ok apps, S w);
     device_spawn := fun _ argv w =>
       match argv with
       | [b] => if existsb (fun a => (b =? identifier a)%string) apps
                then (Ok 4242, S w)
                else (Err (Error "unable to find application"), S w)
       | _ => (Err (Error "bad argv"), S w)
       end;
     device_attach := fun _ z w =>
       if ((z =? 4242) || existsb (fun a => z =? pid a) apps)
          && negb (existsb (Z.eqb z) locked)
       then (Ok z, S w)
       else (Err (Error "unable to find process"), S w);
     device_resume := fun _ _ w => (Ok tt, S w) |}.

Definition two_clocks : list Application :=
  [ {| identifier := "com.example.clock"; name := "Clock"; pid := 0 |};
    {| identifier := "com.example.notes"; name := "Notes"; pid := 77 |};
    {| identifier := "com.vendor.clock"; name := "Clock"; pid := 512 |} ].

(** ** The rest of the module: device resolution, listing, staging

    What [get_usb_iphone], [list_applications] and [create_dir] use
    beyond the libraries above. *)

(** [s.rstrip(c)] for a one-character [c]. *)
Fixpoint rstrip (c : char) (s : string) : string :=
  match s with
  | EmptyString => EmptyString
  | String a s' =>
      match rstrip c s' with
      | EmptyString => if Char.eqb a c then EmptyString else String a EmptyString
      | r => String a r
      end
  end.

(** How [os.makedirs] fails: with an [os.error] ([OSError]), which
    [create_dir] catches, or with any other exception. *)
Inductive os_failure : Type :=
| OSError (msg : string)
| NotOSError (e : exn).

(** [cannot access local variable 'app' where it is not associated with a
    value]: the local [name] is read before its first assignment. *)
Definition UnboundLocalError (name : string) : exn :=
  Error ("cannot access local variable '" ++ name
         ++ "' where it is not associated with a value").

Class Host {E : Externals} : Type := {
  frida_major : Z;                    (* int(frida.__version__.split('.')[0]) *)
  dev_type : device -> string;        (* dev.type *)
  (* frida.get_device_manager().enumerate_devices() *)
  enumerate_devices : world -> result (list device) * world;
  os_makedirs : string -> world -> option os_failure * world
}.

(** How a function that may wait on [FINISHED] stands when it is looked
    at: it has ended, it sleeps in [FINISHED.wait()] with the flag unset,
    or it is still going round its loop. *)
Inductive standing (A : Type) : Type :=
| Ended (o : outcome A)
| Asleep
| Looping.
Arguments Ended {A} o.
Arguments Asleep {A}.
Arguments Looping {A}.

Section HostProgram.

Context {E : Externals} {H : Host}.

Notation "x <- c1 ;; c2" := (bind c1 (fun x => c2))
  (at level 61, c1 at next level, right associativity).
Notation "c1 ;; c2" := (bind c1 (fun _ => c2))
  (at level 61, right associativity).

(** A library call that is not one of the commands of [call]: the world
    moves on, and the call returns or raises. *)
Definition library {A} (f : world -> result A * world) : M A :=
  fun s =>
    let (r, w) := f (env s) in
    let s' := {| FILE_DICT := FILE_DICT s; FINISHED := FINISHED s;
                 stdout := stdout s; bars := bars s;
                 trace := trace s; env := w |} in
    match r with
    | Ok a => (Return a, s')
    | Err e => (Raise e, s')
    end.

(** *** [get_usb_iphone] *)

(** ['usb' if int(frida.__version__.split('.')[0]) >= 12 else 'tether'] *)
Definition device_type : string :=
  if 12 <=? frida_major then "usb" else "tether".

(** The loop [while device is None], for at most [fuel] rounds. *)
Fixpoint get_usb_iphone (fuel : nat) (s : state) : standing device * state :=
  match fuel with
  | O => (Looping, s)
  | S fuel' =>
      match library enumerate_devices s with
      | (Return all, s1) =>
          let devices := filter (fun dev => (dev_type dev =? device_type)%string) all in
          match devices with
          | [] =>
              let s2 := snd (print "Waiting for USB device..." s1) in
              if FINISHED s2 then get_usb_iphone fuel' s2 else (Asleep, s2)
          | dev :: _ => (Ended (Return dev), s1)
          end
      | (Raise e, s1) => (Ended (Raise e), s1)
      | (SystemExit c, s1) => (Ended (SystemExit c), s1)
      end
  end.

(** *** [list_applications] *)

Definition list_applications (dev : device) : M unit :=
  apps <- get_applications dev ;;
  match apps with
  | _ :: _ =>
      (* pid_width and name_width are computed from generator expressions;
         then max(len(app.identifier)) reads the local app, which only the
         loop further down assigns *)
      raise (UnboundLocalError "app")
  | [] => print "No applications found."
  end.

(** *** [create_dir] *)

Definition create_dir (path : string) : M unit :=
  let path := rstrip "092"%char path in
  there <- observe (os_path_exists path) ;;
  (if there : bool
   then external (Rmtree path) (shutil_rmtree path)
   else ret tt) ;;
  fun s =>
    let (r, w) := os_makedirs path (env s) in
    let s' := {| FILE_DICT := FILE_DICT s; FINISHED := FINISHED s;
                 stdout := stdout s; bars := bars s;
                 trace := trace s; env := w |} in
    match r with
    | None => (Return tt, s')
    | Some (OSError err) => print ("Error creating directory: " ++ err) s'
    | Some (NotOSError e) => (Raise e, s')
    end.

End HostProgram.

(** ** Statements about whole classes of computations *)

Section Frames.

Context {E : Externals}.

(** A computation that keeps a property of [FILE_DICT]. *)
Definition keeps_dict (P : dict -> Prop) {A} (m : M A) : Prop :=
  forall s, P (FILE_DICT s) -> P (FILE_DICT (snd (m s))).

(** The moves [generate_ipa] asks for, in order. *)
Definition moves_of (path app_name : string) (items : list (string * string)) : list call :=
  map (fun kv => Move (os_path.join path (fst kv))
                      (os_path.join3 path app_name (snd kv)))
      (filter (fun kv => negb (fst kv =? "app")%string) items).

(** Every move that [generate_ipa] asks for, for the entries [items],
    succeeds, and together they take the world from [w] to [w']. *)
Fixpoint moved (path app_name : string) (items : list (string * string))
         (w w' : world) : Prop :=
  match items with
  | [] => w' = w
  | (key, value) :: rest =>
      if negb (key =? "app")%string
      then exists w1,
          shutil_move (os_path.join path key)
                      (os_path.join3 path app_name value) w = (Ok tt, w1) /\
          moved path app_name rest w1 w'
      else moved path app_name rest w w'
  end.

Definition is_move (c : call) : Prop :=
  match c with
  | Move _ _ => True
  | _ => False
  end.

(** A progress report that does not close its transfer: [sent != size]. *)
Definition partial_report (r : report) : Prop := snd (fst r) <> snd r.

(** What [on_message] leaves in [FILE_DICT] for a payload. *)
Definition registered (p : Payload) (d : dict) : dict :=
  let d1 :=
    match dump p, path p with
    | Some dump_path, Some origin_path =>
        dict_set (os_path.basename dump_path) (extract_path origin_path) d
    | _, _ => d
    end in
  match app p with
  | Some app_path => dict_set "app" (os_path.basename app_path) d1
  | None => d1
  end.

End Frames.

(** A machine whose devices carry a kind, for the device resolver; paths
    under [/var/] and the staging directory exist on it. *)
Definition lab (scp_works chmod_works : bool) (apps : option (list Application))
  : Externals :=
  {| world := nat;
     device := string * string;
     session := Z;
     TEMP_DIR := "/tmp";
     os_getcwd := fun _ => "/home/user";
     scp_get := fun src _ _ w =>
       if scp_works
       then ([(src, 10, 10)], Ok tt, S w)
       else ([], Err (Error "Connection lost"), S w);
     os_path_exists := fun p _ => (p =? "/tmp/Payload")%string || String.prefix "/var/" p;
     chmod_755 := fun _ w =>
       if chmod_works then (Ok tt, S w)
       else (Err (CalledProcessError "exit status 1"), S w);
     shutil_move := fun _ _ w => (Ok tt, S w);
     zip_qr := fun _ _ _ w => (Ok tt, S w);
     shutil_rmtree := fun p w =>
       if (p =? "/tmp/Payload")%string then (Ok tt, S w)
       else (Err (Error "Permission denied"), S w);
     enumerate_applications := fun _ w =>
       match apps with
       | Some l => (Ok l, S w)
       | None => (Err (Error "device is gone"), S w)
       end;
     device_spawn := fun _ _ w => (Ok 4242, S w);
     device_attach := fun _ z w => (Ok z, S w);
     device_resume := fun _ _ w => (Err (Error "unable to resume"), S w) |}.

(** A machine on which moving, zipping or removing can be made to fail. *)
Definition fragile (moves_work zip_works rmtree_works : bool) : Externals :=
  {| world := nat;
     device := unit;
     session := Z;
     TEMP_DIR := "/tmp";
     os_getcwd := fun w => if Nat.eqb w 0 then "/before" else "/home/user";
     scp_get := fun src _ _ w => ([(src, 10, 10)], Ok tt, S w);
     os_path_exists := fun _ _ => false;
     chmod_755 := fun _ w => (Ok tt, S w);
     shutil_move := fun _ dest w =>
       if moves_work || String.prefix "/tmp/Payload/Foo.app/Frameworks" dest
       then (Ok tt, S w)
       else (Err (Error "No such file or directory"), S w);
     zip_qr := fun _ _ _ w =>
       if zip_works then (Ok tt, S w)
       else (Err (CalledProcessError "zip returned non-zero exit status 12"), S w);
     shutil_rmtree := fun _ w =>
       if rmtree_works then (Ok tt, S w)
       else (Err (Error "Directory not empty"), S w);
     enumerate_applications := fun _ w => (Ok [], S w);
     device_spawn := fun _ _ w => (Ok 4242, S w);
     device_attach := fun _ z w => (Ok z, S w);
     device_resume := fun _ _ w => (Ok tt, S w) |}.

(** A table with the bundle, a framework binary and the main binary. *)
Definition three_entries : dict :=
  [("app", "Foo.app");
   ("Bar.fid", "Frameworks/Bar.framework/Bar");
   ("Foo.fid", "Foo")].

Definition lab_host (plugged : list (string * string)) : @Host (lab true true None) :=
  {| frida_major := 16;
     dev_type := fun dev : @device (lab true true None) => snd dev;
     enumerate_devices := fun w => (Ok plugged, S w);
     os_makedirs := fun p w =>
       if (p =? "/tmp/Payload")%string
       then (None, S w)
       else (Some (OSError "Permission denied"), S w) |}.

(** * Properties *)

(** ** Equality of characters and strings *)

Lemma char_eqb_refl (a : char) : Char.eqb a a = true.
Proof. unfold Char.eqb. apply N.eqb_refl. Qed.

Lemma char_eqb_eq (a b : char) : Char.eqb a b = true <-> a = b.
Proof.
  destruct a as [x], b as [y]. unfold Char.eqb; cbn [Char.code].
  rewrite N.eqb_eq. split; [now intros -> | now intros [= ->]].
Qed.

Lemma string_eqb_eq (s1 s2 : string) : (s1 =? s2)%string = true <-> s1 = s2.
Proof.
  revert s2. induction s1 as [|a s1 IH]; intros [|b s2]; cbn [String.eqb];
    try (split; [discriminate | discriminate]); [split; reflexivity|].
  rewrite andb_true_iff, char_eqb_eq, IH.
  split; [now intros [-> ->] | now intros [= -> ->]].
Qed.

Lemma string_eqb_refl (s : string) : (s =? s)%string = true.
Proof. now apply string_eqb_eq. Qed.

Lemma string_eqb_neq (s1 s2 : string) : (s1 =? s2)%string = false <-> s1 <> s2.
Proof.
  rewrite <- string_eqb_eq. destruct (s1 =? s2)%string; split; congruence.
Qed.

Lemma string_eqb_spec (s1 s2 : string) : reflect (s1 = s2) (s1 =? s2)%string.
Proof.
  destruct (s1 =? s2)%string eqn:H; constructor.
  - now apply string_eqb_eq.
  - now apply string_eqb_neq.
Qed.

(** ** The models on concrete inputs *)

Example extract_path_framework :
  extract_path "/var/containers/Bundle/Foo.app/Frameworks/Bar" = "Frameworks/Bar".
Proof. reflexivity. Qed.

Example extract_path_two_markers :
  extract_path "/var/Foo.app/PlugIns/Ext.app/Ext" = "PlugIns/Ext.app/Ext".
Proof. reflexivity. Qed.

Example extract_path_unmarked : extract_path "/var/tmp/Foo" = "/tmp/Foo".
Proof. reflexivity. Qed.

Example extract_path_short : extract_path "Foo" = "".
Proof. reflexivity. Qed.

Example basename_of_bundle : os_path.basename "/var/tmp/Foo.app" = "Foo.app".
Proof. reflexivity. Qed.

Example basename_without_sep : os_path.basename "Foo" = "Foo".
Proof. reflexivity. Qed.

Example basename_trailing_sep : os_path.basename "/var/Foo.app/" = "".
Proof. reflexivity. Qed.

Example join_relative :
  os_path.join3 "/tmp/Payload" "Foo.app" "a/b" = "/tmp/Payload/Foo.app/a/b".
Proof. reflexivity. Qed.

Example join_absolute : os_path.join "/tmp/Payload" "/var/x" = "/var/x".
Proof. reflexivity. Qed.

Example slice_negative : Py.slice_from (-2) "abcdef" = "ef".
Proof. reflexivity. Qed.

(** ** Strings *)

Arguments Py.startswith : simpl never.

Section StringFacts.

Variable sub : string.

Lemma startswith_app (s : string) : Py.startswith sub (sub ++ s) = true.
Proof.
  unfold Py.startswith. induction sub as [|a sub' IH]; simpl.
  - destruct s; reflexivity.
  - now rewrite char_eqb_refl.
Qed.

Lemma skip_app (pre s : string) : Py.skip (String.length pre) (pre ++ s) = s.
Proof. induction pre as [|a pre IH]; simpl; [reflexivity | exact IH]. Qed.

Lemma skip_add (a b : nat) (s : string) :
  Py.skip (a + b) s = Py.skip b (Py.skip a s).
Proof.
  revert s. induction a as [|a IH]; intros s; simpl; [reflexivity|].
  destruct s as [|c s]; [destruct b; reflexivity | apply IH].
Qed.

(** [find_from] answers [-1] or an index from its offset on. *)
Lemma find_from_range (s : string) (i : Z) :
  Py.find_from sub s i = -1 \/ i <= Py.find_from sub s i.
Proof.
  revert i. induction s as [|a s IH]; intros i; simpl.
  - destruct (Py.startswith sub ""); [right; lia | left; reflexivity].
  - destruct (Py.startswith sub (String a s)); [right; lia|].
    destruct (IH (i + 1)) as [H|H]; [left; exact H | right; lia].
Qed.

(** A string that starts with [sub] is [sub] and a rest. *)
Lemma startswith_split (s : string) :
  Py.startswith sub s = true -> exists suf, s = sub ++ suf.
Proof.
  unfold Py.startswith. revert s.
  induction sub as [|a sub' IH]; intros s H.
  - exists s. reflexivity.
  - destruct s as [|b s]; simpl in H; [discriminate|].
    destruct (Char.eqb a b) eqn:Hab; [|discriminate].
    apply char_eqb_eq in Hab. subst b.
    destruct (IH s H) as [suf ->]. exists suf. reflexivity.
Qed.

(** A found index is the start of an occurrence. *)
Lemma find_from_found (s : string) (i : Z) :
  0 <= i -> i <= Py.find_from sub s i ->
  exists pre suf, s = pre ++ sub ++ suf /\
                  Py.find_from sub s i = i + Py.len pre.
Proof.
  revert i. induction s as [|a s IH]; intros i Hi; simpl.
  - destruct (Py.startswith sub "") eqn:P; [|lia].
    intros _. destruct (startswith_split _ P) as [suf Hs].
    exists "", suf. split; [exact Hs | unfold Py.len; simpl; lia].
  - destruct (Py.startswith sub (String a s)) eqn:P.
    + intros _. destruct (startswith_split _ P) as [suf Hs].
      exists "", suf. split; [exact Hs | unfold Py.len; simpl; lia].
    + intros H. destruct (IH (i + 1)) as (pre & suf & Hs & Hf);
        [lia | destruct (find_from_range s (i + 1)); lia |].
      exists (String a pre), suf. split.
      * simpl. now rewrite Hs.
      * rewrite Hf. unfold Py.len; simpl String.length. lia.
Qed.

(** No index is found only when there is no occurrence. *)
Lemma find_from_missing (s : string) (i : Z) :
  Py.find_from sub s i = -1 -> 0 <= i ->
  forall pre suf, s <> pre ++ sub ++ suf.
Proof.
  revert i. induction s as [|a s IH]; intros i; simpl.
  - destruct (Py.startswith sub "") eqn:P; [lia|].
    intros _ _ pre suf Heq.
    destruct pre; [|discriminate]. simpl in Heq.
    rewrite Heq in P. now rewrite startswith_app in P.
  - destruct (Py.startswith sub (String a s)) eqn:P; [lia|].
    intros H Hi pre suf Heq.
    destruct pre as [|c pre]; simpl in Heq.
    + rewrite Heq in P. now rewrite startswith_app in P.
    + injection Heq as _ Heq. exact (IH (i + 1) H ltac:(lia) pre suf Heq).
Qed.

(** An occurrence is counted. *)
Lemma occurrences_app (pre suf : string) :
  (1 <= Py.occurrences sub (pre ++ sub ++ suf))%nat.
Proof.
  induction pre as [|a pre IH].
  - change ("" ++ sub ++ suf) with (sub ++ suf).
    destruct (sub ++ suf) eqn:Heq; simpl;
      rewrite <- Heq, startswith_app; lia.
  - simpl. lia.
Qed.

(** With a single occurrence, [find] gives where it starts. *)
Lemma find_from_single (pre suf : string) (i : Z) :
  Py.occurrences sub (pre ++ sub ++ suf) = 1%nat ->
  Py.find_from sub (pre ++ sub ++ suf) i = i + Py.len pre.
Proof.
  revert i. induction pre as [|a pre IH]; intros i Hocc.
  - change ("" ++ sub ++ suf) with (sub ++ suf).
    unfold Py.len; simpl String.length.
    destruct (sub ++ suf) eqn:Heq; simpl;
      rewrite <- Heq, startswith_app; lia.
  - simpl in *.
    pose proof (occurrences_app pre suf) as Hge.
    destruct (Py.startswith sub (String a (pre ++ sub ++ suf))); [lia|].
    rewrite IH by lia. unfold Py.len; simpl String.length. lia.
Qed.

End StringFacts.

(** [sub in s] holds exactly when [s] splits around [sub]. *)
Lemma contains_spec (sub s : string) :
  Py.contains sub s = true <-> exists pre suf, s = pre ++ sub ++ suf.
Proof.
  unfold Py.contains, Py.find. split.
  - intros H. apply Z.leb_le in H.
    destruct (find_from_found sub s 0 ltac:(lia) H) as (pre & suf & Hs & _). eauto.
  - intros (pre & suf & Hs). apply Z.leb_le.
    destruct (find_from_range sub s 0) as [H|H]; [|exact H].
    exfalso. exact (find_from_missing sub s 0 H ltac:(lia) pre suf Hs).
Qed.

(** ** [extract_path] *)

(** C4: for a device path with exactly one ['.app/'] segment,
    [extract_path] returns exactly what follows that segment. *)
Theorem extract_path_single_marker (origin_path pre suf : string) :
  Py.occurrences ".app/" origin_path = 1%nat ->
  origin_path = pre ++ ".app/" ++ suf ->
  extract_path origin_path = suf.
Proof.
  intros Hocc ->. unfold extract_path, Py.find; cbv zeta.
  rewrite find_from_single by exact Hocc.
  unfold Py.slice_from, Py.len.
  replace (0 + Z.of_nat (String.length pre) + 5 <? 0) with false
    by (symmetry; apply Z.ltb_ge; lia).
  replace (0 + Z.of_nat (String.length pre) + 5)
    with (Z.of_nat (String.length pre + 5)) by lia.
  rewrite Nat2Z.id, skip_add, skip_app. reflexivity.
Qed.

Lemma extract_path_single_marker_witness :
  let origin_path :=
    "/var/containers/Bundle/Application/1F/Foo.app/Frameworks/Bar.framework/Bar" in
  Py.occurrences ".app/" origin_path = 1%nat /\
  origin_path = "/var/containers/Bundle/Application/1F/Foo" ++ ".app/"
                  ++ "Frameworks/Bar.framework/Bar" /\
  extract_path origin_path = "Frameworks/Bar.framework/Bar".
Proof.
  intros origin_path. split; [reflexivity|]. split; [reflexivity|].
  apply (extract_path_single_marker origin_path
           "/var/containers/Bundle/Application/1F/Foo"); reflexivity.
Defined.

(** Dropping [n] characters splits the string into a head of [n]
    characters, or of all there are, and the rest. *)
Lemma skip_split (n : nat) (s : string) :
  exists head, s = head ++ Py.skip n s /\
               String.length head = Nat.min n (String.length s).
Proof.
  revert s. induction n as [|n IH]; intros s.
  - exists "". split; reflexivity.
  - destruct s as [|a s].
    + exists "". split; reflexivity.
    + destruct (IH s) as (head & Hs & Hl). exists (String a head). split.
      * simpl. now rewrite <- Hs.
      * simpl. now rewrite Hl.
Qed.

(** C9: without any ['.app/'] in it, the path makes [find] answer [-1],
    and [extract_path], a total function, returns [origin_path[4:]]: the
    path without its first four characters, or the empty string when it
    has no more than four. *)
Theorem extract_path_without_marker (origin_path : string) :
  Py.contains ".app/" origin_path = false ->
  Py.find ".app/" origin_path = -1 /\
  extract_path origin_path = Py.slice_from 4 origin_path /\
  exists head,
    origin_path = head ++ extract_path origin_path /\
    String.length head = Nat.min 4 (String.length origin_path).
Proof.
  intros H. unfold Py.contains in H. apply Z.leb_gt in H.
  assert (Hf : Py.find ".app/" origin_path = -1).
  { unfold Py.find in *.
    destruct (find_from_range ".app/" origin_path 0) as [E|E]; [exact E | lia]. }
  assert (Hx : extract_path origin_path = Py.slice_from 4 origin_path).
  { unfold extract_path; cbv zeta. rewrite Hf. reflexivity. }
  split; [exact Hf|]. split; [exact Hx|].
  rewrite Hx. exact (skip_split 4 origin_path).
Qed.

Lemma extract_path_without_marker_witness :
  let origin_path := String "/" (String (Char 24494) (String (Char 20449) "/Caches/Foo")) in
  Py.contains ".app/" origin_path = false /\
  extract_path origin_path = "Caches/Foo" /\
  Py.find ".app/" origin_path = -1 /\
  extract_path origin_path = Py.slice_from 4 origin_path /\
  exists head,
    origin_path = head ++ extract_path origin_path /\
    String.length head = Nat.min 4 (String.length origin_path).
Proof.
  intros origin_path. split; [reflexivity|]. split; [reflexivity|].
  apply (extract_path_without_marker origin_path). reflexivity.
Defined.

(** ** The copy channel and the notification handler *)

(** Unfolds the plumbing of the monad, not the program's functions. *)
Ltac plumbing :=
  cbv beta iota zeta delta
    [bind ret raise try_except print draw observe external getitem
     FINISHED_set FILE_DICT_setitem FILE_DICT_getitem FILE_DICT_items];
  cbn [fst snd FILE_DICT FINISHED stdout bars trace env].

Ltac fields := cbn [fst snd FILE_DICT FINISHED stdout bars trace env].

Section HandlerFacts.

Context {E : Externals}.

(** [progress_bar] draws one new bar per report and nothing else. *)
Lemma report_all_progress_bar (rs : list report) (s : state) :
  report_all progress_bar rs s =
    (Return tt,
     {| FILE_DICT := FILE_DICT s; FINISHED := FINISHED s; stdout := stdout s;
        bars := bars s ++ map bar_of rs; trace := trace s; env := env s |}).
Proof.
  revert s. induction rs as [|[[f size] sent] rs IH]; intros s.
  - cbn [report_all map]. rewrite app_nil_r. destruct s; reflexivity.
  - cbn [report_all map]. unfold progress_bar at 1. plumbing.
    rewrite IH. cbn [FILE_DICT FINISHED stdout bars trace env].
    rewrite <- app_assoc. reflexivity.
Qed.

(** A pull that raises [e]: the exception stops in [scp_transfer], which
    logs it and returns. *)
Lemma scp_transfer_raised (src dest : string) (recursive : bool) (s : state)
      (rs : list report) (e : exn) (w : world) :
  scp_get src dest recursive (env s) = (rs, Err e, w) ->
  scp_transfer src dest recursive s =
    (Return tt,
     {| FILE_DICT := FILE_DICT s; FINISHED := FINISHED s;
        stdout := stdout s ++ ["Transferring " ++ src ++ " to " ++ dest ++ " via SCP";
                               scp_transfer_error e];
        bars := bars s ++ map bar_of rs;
        trace := trace s ++ [ScpGet src dest recursive];
        env := w |}).
Proof.
  intros H. unfold scp_transfer, SCPClient_get. plumbing.
  rewrite H, report_all_progress_bar.
  cbn [FILE_DICT FINISHED stdout bars trace env].
  rewrite <- app_assoc. reflexivity.
Qed.

(** Whatever the channel and [chmod] do, [scp_transfer] returns, having
    left [FILE_DICT] and [FINISHED] alone and asked for the pull. *)
Lemma scp_transfer_returns (src dest : string) (recursive : bool) (s : state) :
  exists s',
    scp_transfer src dest recursive s = (Return tt, s') /\
    FILE_DICT s' = FILE_DICT s /\
    FINISHED s' = FINISHED s /\
    exists cs, trace s' = (trace s ++ ScpGet src dest recursive :: cs)%list.
Proof.
  unfold scp_transfer, SCPClient_get. plumbing.
  destruct (scp_get src dest recursive (env s)) as [[rs [[]|e]] w];
    rewrite report_all_progress_bar; fields.
  - destruct (os_path_exists (os_path.join dest src) w); fields.
    + destruct (chmod_755 (os_path.join dest src) w) as [[[]|e] w'];
        eexists; (split; [reflexivity|]); fields; repeat split;
        exists [Chmod755 (os_path.join dest src)];
        rewrite <- app_assoc; reflexivity.
    + eexists; (split; [reflexivity|]); fields; repeat split;
        exists []; reflexivity.
  - eexists; (split; [reflexivity|]); fields; repeat split;
      exists []; reflexivity.
Qed.

(** C1, as the code has it: when the pull of a binary notification
    raises, [scp_transfer] catches and logs the exception, [on_message]
    returns, the entry [basename(dump) -> extract_path(path)] is written
    to [FILE_DICT] all the same, and the notifications that follow are
    handled from that state. *)
Theorem on_message_failed_pull_registers
        (dump_path origin_path : string) (s : state)
        (rs : list report) (e : exn) (w : world) :
  scp_get dump_path PAYLOAD_PATH false (env s) = (rs, Err e, w) ->
  let s' :=
    {| FILE_DICT := dict_set (os_path.basename dump_path)
                             (extract_path origin_path) (FILE_DICT s);
       FINISHED := FINISHED s;
       stdout := stdout s ++
         ["Transferring " ++ dump_path ++ " to " ++ PAYLOAD_PATH ++ " via SCP";
          scp_transfer_error e];
       bars := bars s ++ map bar_of rs ++ [tqdm_close tqdm_new];
       trace := trace s ++ [ScpGet dump_path PAYLOAD_PATH false];
       env := w |} in
  on_message (FileReady_binary dump_path origin_path) s = (Return tt, s') /\
  dict_get (os_path.basename dump_path) (FILE_DICT s') = Some (extract_path origin_path) /\
  forall rest,
    on_messages (FileReady_binary dump_path origin_path :: rest) s = on_messages rest s'.
Proof.
  intros H s'.
  assert (Hm : on_message (FileReady_binary dump_path origin_path) s = (Return tt, s')).
  { unfold on_message, FileReady_binary.
    cbn [payload dump path app done t]. unfold bind at 1 2 3.
    rewrite (scp_transfer_raised _ _ _ _ _ _ _ H). plumbing.
    subst s'. rewrite <- app_assoc. reflexivity. }
  split; [exact Hm|]. split.
  - subst s'. cbn [FILE_DICT].
    generalize (os_path.basename dump_path) (extract_path origin_path) (FILE_DICT s).
    intros k v d. induction d as [|[k' v'] d IH]; simpl.
    + now rewrite string_eqb_refl.
    + destruct (string_eqb_spec k k') as [->|ne]; simpl.
      * now rewrite string_eqb_refl.
      * destruct (string_eqb_spec k k'); [contradiction | exact IH].
  - intros rest. cbn [on_messages]. unfold bind at 1. rewrite Hm. reflexivity.
Qed.

(** What a bundle notification does, whatever the channel does. *)
Lemma on_message_bundle (app_path : string) (s : state) :
  exists s',
    on_message (FileReady_bundle app_path) s = (Return tt, s') /\
    FILE_DICT s' = dict_set "app" (os_path.basename app_path) (FILE_DICT s) /\
    FINISHED s' = FINISHED s /\
    exists cs, trace s' = (trace s ++ ScpGet app_path PAYLOAD_PATH true :: cs)%list.
Proof.
  destruct (scp_transfer_returns app_path PAYLOAD_PATH true s)
    as (s1 & H1 & HD & HF & cs & HT).
  unfold on_message, FileReady_bundle. cbn [payload dump path app done t].
  unfold bind at 1 2 3 4. unfold ret at 1. rewrite H1. plumbing.
  eexists. split; [reflexivity|]. fields. rewrite HD, HF, HT. eauto.
Qed.

(** What a binary notification does, whatever the channel does. *)
Lemma on_message_binary (dump_path origin_path : string) (s : state) :
  exists s',
    on_message (FileReady_binary dump_path origin_path) s = (Return tt, s') /\
    FILE_DICT s' = dict_set (os_path.basename dump_path)
                            (extract_path origin_path) (FILE_DICT s) /\
    FINISHED s' = FINISHED s /\
    exists cs, trace s' = (trace s ++ ScpGet dump_path PAYLOAD_PATH false :: cs)%list.
Proof.
  destruct (scp_transfer_returns dump_path PAYLOAD_PATH false s)
    as (s1 & H1 & HD & HF & cs & HT).
  unfold on_message, FileReady_binary. cbn [payload dump path app done t].
  unfold bind at 1 2 3. rewrite H1. plumbing.
  eexists. split; [reflexivity|]. fields. rewrite HD, HF, HT. eauto.
Qed.

(** The completion notification sets the flag and pulls nothing. *)
Lemma on_message_completed (s : state) :
  on_message Completed s =
    (Return tt,
     {| FILE_DICT := FILE_DICT s; FINISHED := true; stdout := stdout s;
        bars := bars s ++ [tqdm_close tqdm_new]; trace := trace s; env := env s |}).
Proof. reflexivity. Qed.

End HandlerFacts.

(** ** Paths under the staging directory *)

Lemma str_app_assoc (a b c : string) : (a ++ b) ++ c = a ++ b ++ c.
Proof. induction a as [|x a IH]; simpl; [reflexivity | now rewrite IH]. Qed.

Lemma endswith_app (c : char) (a b : string) :
  b <> "" -> Py.endswith c (a ++ b) = Py.endswith c b.
Proof.
  intros Hb. induction a as [|x a IH]; [reflexivity|].
  simpl. destruct (a ++ b) eqn:Hab.
  - destruct a; [simpl in Hab; contradiction | discriminate].
  - exact IH.
Qed.

Lemma app_not_empty (a b : string) : b <> "" -> (a ++ b =? "")%string = false.
Proof.
  intros Hb. apply string_eqb_neq. destruct a; simpl; [exact Hb | discriminate].
Qed.

(** Joining a relative name to a path that ends in a name. *)
Lemma join_after_name (a tail b : string) :
  tail <> "" -> Py.endswith os_path.sep tail = false ->
  Py.startswith (String os_path.sep EmptyString) b = false ->
  os_path.join (a ++ tail) b = a ++ tail ++ "/" ++ b.
Proof.
  intros Ht He Hb. unfold os_path.join, os_path.join2.
  rewrite Hb, app_not_empty, endswith_app, He by exact Ht.
  cbn [orb]. now rewrite str_app_assoc.
Qed.

Section StagingFacts.

Context {E : Externals}.

(** [PAYLOAD_PATH] is [TEMP_DIR] and, after a separator if one is
    missing, [Payload]. *)
Lemma PAYLOAD_PATH_tail :
  exists a, PAYLOAD_PATH = a ++ "Payload".
Proof.
  unfold PAYLOAD_PATH, PAYLOAD_DIR, os_path.join, os_path.join2.
  change (Py.startswith (String os_path.sep "") "Payload") with false.
  destruct ((TEMP_DIR =? "")%string || Py.endswith os_path.sep TEMP_DIR).
  - exists TEMP_DIR. reflexivity.
  - exists (TEMP_DIR ++ "/"). now rewrite str_app_assoc.
Qed.

Lemma join_PAYLOAD_PATH (b : string) :
  Py.startswith (String os_path.sep EmptyString) b = false ->
  os_path.join PAYLOAD_PATH b = PAYLOAD_PATH ++ "/" ++ b.
Proof.
  intros Hb. destruct PAYLOAD_PATH_tail as [a ->].
  rewrite join_after_name by (try discriminate; try reflexivity; exact Hb).
  now rewrite str_app_assoc.
Qed.

Lemma join3_PAYLOAD_PATH (b tail c : string) :
  Py.startswith (String os_path.sep EmptyString) (b ++ tail) = false ->
  tail <> "" -> Py.endswith os_path.sep tail = false ->
  Py.startswith (String os_path.sep EmptyString) c = false ->
  os_path.join3 PAYLOAD_PATH (b ++ tail) c = PAYLOAD_PATH ++ "/" ++ (b ++ tail) ++ "/" ++ c.
Proof.
  intros Hb Ht He Hc. unfold os_path.join3.
  change (os_path.join2 PAYLOAD_PATH (b ++ tail))
    with (os_path.join PAYLOAD_PATH (b ++ tail)).
  rewrite join_PAYLOAD_PATH by exact Hb.
  replace (PAYLOAD_PATH ++ "/" ++ b ++ tail)
    with ((PAYLOAD_PATH ++ "/" ++ b) ++ tail)
    by (now rewrite !str_app_assoc).
  change (os_path.join2 ?x c) with (os_path.join x c).
  rewrite join_after_name by assumption.
  now rewrite !str_app_assoc.
Qed.

End StagingFacts.

(** ** The archive assembler and the scenario of a whole dump *)

Section AssemblerFacts.

Context {E : Externals}.

(** The rounds of the loop of [generate_ipa]. *)
Lemma move_items_nil (path app_name : string) :
  move_items path app_name [] = ret tt.
Proof. reflexivity. Qed.

Lemma move_items_cons (path app_name key value : string) (rest : list (string * string)) :
  move_items path app_name ((key, value) :: rest) =
    bind (if negb (key =? "app")%string
          then external (Move (os_path.join path key)
                              (os_path.join3 path app_name value))
                        (shutil_move (os_path.join path key)
                                     (os_path.join3 path app_name value))
          else ret tt)
         (fun _ => move_items path app_name rest).
Proof. reflexivity. Qed.

(** C3: without the key ['app'] in [FILE_DICT], [generate_ipa] stops at
    its first statement: the [KeyError] is caught and logged, [FINISHED]
    is set, and no command at all is issued, so no archive is written
    and the staging directory is not removed. *)
Theorem generate_ipa_without_app (path display_name : string) (s : state) :
  dict_get "app" (FILE_DICT s) = None ->
  generate_ipa path display_name s =
    (Return tt,
     {| FILE_DICT := FILE_DICT s;
        FINISHED := true;
        stdout := stdout s ++
          ["Generating " ++ dquote ++ (display_name ++ ".ipa") ++ dquote;
           "Error generating IPA: 'app'"];
        bars := bars s;
        trace := trace s;
        env := env s |}).
Proof.
  intros H. unfold generate_ipa. plumbing. rewrite H. fields.
  rewrite <- app_assoc. reflexivity.
Qed.

(** C2, as the code has it: after the bundle, the binary and the
    completion notification, whatever the pulls did, [FILE_DICT] is
    [{'app': 'Foo.app', 'Foo.plist': 'Foo.plist'}] (the bundle is filed
    under the key ['app']), the flag is set, and the first command of
    [generate_ipa] moves [Foo.plist] of the staging directory to
    [Foo.app/Foo.plist] there. *)
Theorem scenario_bundle_binary_completed (w : world) (display_name : string) :
  exists s3,
    on_messages [FileReady_bundle "/var/.../Foo.app";
                 FileReady_binary "/var/.../Foo.plist" "/var/.../Foo.app/Foo.plist";
                 Completed] (initial w) = (Return tt, s3) /\
    FILE_DICT s3 = [("app", "Foo.app"); ("Foo.plist", "Foo.plist")] /\
    FINISHED s3 = true /\
    exists cs,
      trace (snd (generate_ipa PAYLOAD_PATH display_name s3)) =
        (trace s3 ++ Move (PAYLOAD_PATH ++ "/Foo.plist")
                          (PAYLOAD_PATH ++ "/Foo.app/Foo.plist") :: cs)%list.
Proof.
  destruct (on_message_bundle "/var/.../Foo.app" (initial w))
    as (s1 & H1 & D1 & _ & _).
  destruct (on_message_binary "/var/.../Foo.plist" "/var/.../Foo.app/Foo.plist" s1)
    as (s2 & H2 & D2 & _ & _).
  assert (D3 : FILE_DICT s2 = [("app", "Foo.app"); ("Foo.plist", "Foo.plist")]).
  { rewrite D2, D1. reflexivity. }
  eexists. split; [|split; [|split]].
  - cbn [on_messages]. unfold bind at 1. rewrite H1.
    unfold bind at 1. rewrite H2.
    unfold bind at 1. rewrite on_message_completed. reflexivity.
  - exact D3.
  - reflexivity.
  - unfold generate_ipa. plumbing. rewrite D3.
    change (dict_get "app" [("app", "Foo.app"); ("Foo.plist", "Foo.plist")])
      with (Some "Foo.app").
    cbv beta iota. fields. rewrite 2 move_items_cons, move_items_nil.
    change (negb ("app" =? "app")%string) with false.
    change (negb ("Foo.plist" =? "app")%string) with true.
    plumbing.
    rewrite (join_PAYLOAD_PATH "Foo.plist") by reflexivity.
    rewrite (join3_PAYLOAD_PATH "Foo" ".app" "Foo.plist")
      by (try discriminate; reflexivity).
    change (PAYLOAD_PATH ++ "/" ++ "Foo.plist") with (PAYLOAD_PATH ++ "/Foo.plist").
    change (PAYLOAD_PATH ++ "/" ++ ("Foo" ++ ".app") ++ "/" ++ "Foo.plist")
      with (PAYLOAD_PATH ++ "/Foo.app/Foo.plist").
    set (src := PAYLOAD_PATH ++ "/Foo.plist").
    set (dest := PAYLOAD_PATH ++ "/Foo.app/Foo.plist").
    destruct (shutil_move src dest (env s2)) as [[[]|e1] w1]; fields.
    + match goal with |- context [zip_qr ?a ?b ?c w1] =>
        destruct (zip_qr a b c w1) as [[[]|e2] w2] end; fields.
      * destruct (shutil_rmtree PAYLOAD_PATH w2) as [[[]|e3] w3]; fields;
          rewrite <- !app_assoc; eexists; reflexivity.
      * rewrite <- !app_assoc; eexists; reflexivity.
    + eexists; reflexivity.
Qed.

End AssemblerFacts.

Lemma generate_ipa_without_app_witness :
  let E := bench true [] [] in
  let s := snd (on_messages [FileReady_binary "/tmp/Foo.fid" "/var/Foo.app/Foo"; Completed]
                            (initial 0%nat)) in
  dict_get "app" (FILE_DICT s) = None /\
  exists out, generate_ipa PAYLOAD_PATH "Foo" s = (Return tt, out) /\
              FINISHED out = true /\ trace out = trace s /\ env out = env s.
Proof.
  intros E s. split; [reflexivity|].
  eexists. split; [apply (generate_ipa_without_app PAYLOAD_PATH "Foo" s); reflexivity|].
  repeat split.
Defined.

(** C1 does not hold as the specification words it: with a channel that
    breaks in the middle of every pull, the binary notification still
    leaves its entry in [FILE_DICT]. *)
Lemma failed_pull_entry_counterexample :
  let E := bench false [] [] in
  let m := FileReady_binary "/var/mobile/Documents/Foo.fid" "/var/Bundle/Foo.app/Foo" in
  scp_get "/var/mobile/Documents/Foo.fid" PAYLOAD_PATH false (env (initial 0%nat))
    = ([("/var/mobile/Documents/Foo.fid", 10, 4)], Err (Error "Connection lost"), 1%nat) /\
  fst (on_message m (initial 0%nat)) = Return tt /\
  dict_get (os_path.basename "/var/mobile/Documents/Foo.fid")
           (FILE_DICT (snd (on_message m (initial 0%nat)))) = Some "Foo" /\
  extract_path "/var/Bundle/Foo.app/Foo" = "Foo".
Proof. repeat split. Qed.

Lemma on_message_failed_pull_registers_witness :
  let E := bench false [] [] in
  let m := FileReady_binary "/var/mobile/Documents/Foo.fid" "/var/Bundle/Foo.app/Foo" in
  scp_get "/var/mobile/Documents/Foo.fid" PAYLOAD_PATH false (env (initial 0%nat))
    = ([("/var/mobile/Documents/Foo.fid", 10, 4)], Err (Error "Connection lost"), 1%nat) /\
  fst (on_message m (initial 0%nat)) = Return tt /\
  FILE_DICT (snd (on_message m (initial 0%nat))) = [("Foo.fid", "Foo")].
Proof.
  intros E m.
  pose proof (on_message_failed_pull_registers
                (E := E) "/var/mobile/Documents/Foo.fid" "/var/Bundle/Foo.app/Foo"
                (initial 0%nat) _ _ _ eq_refl) as (Hm & _ & _).
  split; [reflexivity|]. unfold m. rewrite Hm. split; reflexivity.
Defined.

(** C2 does not hold as the specification words it: the table never maps
    ['Foo.app'] to ['app'], whether the binary's originating path lies
    under the bundle or is the staged path itself. *)
Lemma scenario_table_counterexample :
  let E := bench true [] [] in
  let table origin_path :=
    FILE_DICT (snd (on_messages [FileReady_bundle "/var/.../Foo.app";
                                 FileReady_binary "/var/.../Foo.plist" origin_path;
                                 Completed] (initial 0%nat))) in
  ~ dict_same (table "/var/.../Foo.app/Foo.plist")
              [("Foo.app", "app"); ("Foo.plist", "Foo.plist")] /\
  ~ dict_same (table "/var/.../Foo.plist")
              [("Foo.app", "app"); ("Foo.plist", "Foo.plist")] /\
  table "/var/.../Foo.app/Foo.plist" = [("app", "Foo.app"); ("Foo.plist", "Foo.plist")].
Proof.
  intros E table. repeat split.
  - intros H. specialize (H "Foo.app"). vm_compute in H. discriminate H.
  - intros H. specialize (H "Foo.app"). vm_compute in H. discriminate H.
Qed.

(** ** The session manager *)

Section SessionFacts.

Context {E : Externals}.

(** The loop keeps the descriptor of the last application that matches,
    or what it started with when none does. *)
Lemma scan_fold (app_id : string) (d : Application) (apps : list Application) (acc : target) :
  fold_left (scan_step app_id) apps acc =
    match filter (matches app_id) apps with
    | [] => acc
    | a :: m => chosen (last (a :: m) d)
    end.
Proof.
  revert acc. induction apps as [|a apps IH]; intros acc; [reflexivity|].
  cbn [fold_left filter]. rewrite IH. unfold scan_step.
  destruct (matches app_id a); [|reflexivity].
  destruct (filter (matches app_id) apps); reflexivity.
Qed.

Lemma scan_no_match (app_id : string) (apps : list Application) :
  filter (matches app_id) apps = [] -> scan app_id apps = (pid_empty, "", "").
Proof.
  intros H. unfold scan.
  rewrite (scan_fold app_id (mkApplication "" "" 0)), H. reflexivity.
Qed.

Lemma scan_last_match (app_id : string) (d : Application) (apps : list Application) :
  filter (matches app_id) apps <> [] ->
  scan app_id apps = chosen (last (filter (matches app_id) apps) d).
Proof.
  intros H. unfold scan. rewrite (scan_fold app_id d).
  destruct (filter (matches app_id) apps); [contradiction | reflexivity].
Qed.

(** Once the enumeration has answered, [open_target_app] goes on from
    the scan of the answer. *)
Lemma open_target_app_enumerated (dev : device) (app_id : string) (s : state)
      (apps : list Application) (w : world) :
  enumerate_applications dev (env s) = (Ok apps, w) ->
  open_target_app dev app_id s =
    (let '(pid, display_name, bundle_identifier) := scan app_id apps in
     bind (if not_pid pid
           then spawn_attach_resume dev bundle_identifier
           else match pid with
                | pid_int z => attach_only dev z
                | pid_empty => spawn_attach_resume dev bundle_identifier
                end)
          (fun sess => ret (sess, display_name, bundle_identifier)))
      {| FILE_DICT := FILE_DICT s; FINISHED := FINISHED s;
         stdout := stdout s ++ ["Starting app " ++ app_id];
         bars := bars s;
         trace := trace s ++ [EnumerateApplications];
         env := w |}.
Proof.
  intros H. unfold open_target_app, get_applications.
  unfold bind at 1 2, print at 1, external at 1. fields. rewrite H. reflexivity.
Qed.

(** The spawning branch returns whatever the device does, and its first
    command is the spawn. *)
Lemma spawn_attach_resume_returns (dev : device) (bundle_identifier : string) (s : state) :
  exists sess s' cs,
    spawn_attach_resume dev bundle_identifier s = (Return sess, s') /\
    trace s' = (trace s ++ Spawn [bundle_identifier] :: cs)%list /\
    FINISHED s' = FINISHED s.
Proof.
  unfold spawn_attach_resume, log_start_error. plumbing.
  destruct (device_spawn dev [bundle_identifier] (env s)) as [[z|e] w1]; fields.
  - destruct (device_attach dev z w1) as [[sess|e] w2]; fields.
    + destruct (device_resume dev z w2) as [[[]|e] w3]; fields;
        do 3 eexists; (split; [reflexivity|]); fields;
        rewrite <- !app_assoc; split; reflexivity.
    + do 3 eexists; (split; [reflexivity|]); fields;
        rewrite <- !app_assoc; split; reflexivity.
  - do 3 eexists; (split; [reflexivity|]); fields; split; reflexivity.
Qed.

(** The attaching branch returns too, and its only command is the
    attach. *)
Lemma attach_only_returns (dev : device) (z : Z) (s : state) :
  exists sess s',
    attach_only dev z s = (Return sess, s') /\
    trace s' = (trace s ++ [Attach z])%list /\
    FINISHED s' = FINISHED s.
Proof.
  unfold attach_only, log_start_error. plumbing.
  destruct (device_attach dev z (env s)) as [[sess|e] w1]; fields;
    do 2 eexists; (split; [reflexivity|]); fields; split; reflexivity.
Qed.

(** C5: when two or more descriptors match the target, the one that
    comes last in the enumeration is selected: its display name and
    bundle identifier are returned, and the device is asked to attach to
    its pid, or to spawn its bundle identifier when its pid is 0. The
    result is a function of the enumeration. *)
Theorem open_target_app_last_match (dev : device) (app_id : string) (s : state)
        (apps : list Application) (w : world) :
  enumerate_applications dev (env s) = (Ok apps, w) ->
  (2 <= length (filter (matches app_id) apps))%nat ->
  let a := last (filter (matches app_id) apps) (mkApplication "" "" 0) in
  scan app_id apps = (pid_int (pid a), name a, identifier a) /\
  exists sess s' cs,
    open_target_app dev app_id s = (Return (sess, name a, identifier a), s') /\
    trace s' = (trace s ++ EnumerateApplications ::
                  (if pid a =? 0 then Spawn [identifier a] else Attach (pid a)) :: cs)%list.
Proof.
  intros Henum Hlen a.
  assert (Hscan : scan app_id apps = (pid_int (pid a), name a, identifier a)).
  { apply (scan_last_match app_id (mkApplication "" "" 0)).
    intros Hnil. rewrite Hnil in Hlen. simpl in Hlen. lia. }
  split; [exact Hscan|].
  rewrite (open_target_app_enumerated _ _ _ _ _ Henum), Hscan.
  cbn [not_pid]. unfold bind, ret.
  destruct (pid a =? 0).
  - match goal with |- context [spawn_attach_resume dev ?b ?st] =>
      destruct (spawn_attach_resume_returns dev b st) as (sess & s' & cs & -> & HT & _)
    end.
    exists sess, s', cs. split; [reflexivity|].
    rewrite HT. fields. now rewrite <- app_assoc.
  - match goal with |- context [attach_only dev ?z ?st] =>
      destruct (attach_only_returns dev z st) as (sess & s' & -> & HT & _)
    end.
    exists sess, s', []. split; [reflexivity|].
    rewrite HT. fields. now rewrite <- app_assoc.
Qed.

(** C8: an exception of [spawn] or of [attach] never leaves
    [open_target_app]: it is logged, and the function returns no session
    together with the display name and bundle identifier it resolved. *)
Theorem open_target_app_catches (dev : device) (app_id : string) (s : state)
        (apps : list Application) (w : world) (e : exn) :
  enumerate_applications dev (env s) = (Ok apps, w) ->
  start_raises dev (scan app_id apps) w e ->
  exists s',
    open_target_app dev app_id s =
      (Return (None, snd (fst (scan app_id apps)), snd (scan app_id apps)), s') /\
    stdout s' = (stdout s ++ [("Starting app " ++ app_id)%string;
                              ("Error starting app: " ++ str_exn e)%string])%list.
Proof.
  intros Henum Hraise.
  rewrite (open_target_app_enumerated _ _ _ _ _ Henum).
  destruct (scan app_id apps) as [[p display_name] bundle_identifier].
  cbn [fst snd]. unfold start_raises in Hraise.
  destruct (not_pid p).
  - unfold spawn_attach_resume, log_start_error. plumbing.
    destruct Hraise as [(w1 & H1) | (z & w1 & w2 & H1 & H2)]; rewrite H1; fields.
    + eexists. split; [reflexivity|]. fields. now rewrite <- app_assoc.
    + rewrite H2. fields. eexists. split; [reflexivity|]. fields.
      now rewrite <- app_assoc.
  - destruct Hraise as (z & w1 & -> & H1).
    unfold attach_only, log_start_error. plumbing. rewrite H1. fields.
    eexists. split; [reflexivity|]. fields. now rewrite <- app_assoc.
Qed.

(** C10: when no descriptor matches, [open_target_app] asks the device
    to spawn the empty bundle identifier; the exception this raises is
    caught and logged, and the function returns [(None, '', '')]. *)
Theorem open_target_app_unknown_target (dev : device) (app_id : string) (s : state)
        (apps : list Application) (w w' : world) (e : exn) :
  enumerate_applications dev (env s) = (Ok apps, w) ->
  filter (matches app_id) apps = [] ->
  device_spawn dev [""] w = (Err e, w') ->
  open_target_app dev app_id s =
    (Return (None, "", ""),
     {| FILE_DICT := FILE_DICT s; FINISHED := FINISHED s;
        stdout := stdout s ++ ["Starting app " ++ app_id;
                               "Error starting app: " ++ str_exn e];
        bars := bars s;
        trace := trace s ++ [EnumerateApplications; Spawn [""]];
        env := w' |}).
Proof.
  intros Henum Hnone Hspawn.
  rewrite (open_target_app_enumerated _ _ _ _ _ Henum), (scan_no_match _ _ Hnone).
  cbn [not_pid]. unfold spawn_attach_resume, log_start_error. plumbing.
  rewrite Hspawn. fields. rewrite <- !app_assoc. reflexivity.
Qed.

End SessionFacts.

Lemma open_target_app_last_match_witness :
  let E := bench true two_clocks [] in
  let a := {| identifier := "com.vendor.clock"; name := "Clock"; pid := 512 |} in
  enumerate_applications tt (env (initial 0%nat)) = (Ok two_clocks, 1%nat) /\
  (2 <= length (filter (matches "Clock") two_clocks))%nat /\
  last (filter (matches "Clock") two_clocks) (mkApplication "" "" 0) = a /\
  scan "Clock" two_clocks = (pid_int 512, "Clock", "com.vendor.clock") /\
  exists sess s' cs,
    open_target_app tt "Clock" (initial 0%nat) = (Return (sess, "Clock", "com.vendor.clock"), s') /\
    trace s' = ([EnumerateApplications; Attach 512] ++ cs)%list.
Proof.
  intros E a.
  assert (Hlen : (2 <= length (filter (matches "Clock") two_clocks))%nat)
    by (vm_compute; lia).
  split; [reflexivity|]. split; [exact Hlen|]. split; [reflexivity|].
  exact (open_target_app_last_match (E := E) tt "Clock" (initial 0%nat)
           two_clocks 1%nat eq_refl Hlen).
Defined.

Lemma open_target_app_catches_witness :
  let E := bench true two_clocks [512] in
  enumerate_applications tt (env (initial 0%nat)) = (Ok two_clocks, 1%nat) /\
  start_raises tt (scan "Clock" two_clocks) 1%nat (Error "unable to find process") /\
  exists s',
    open_target_app tt "Clock" (initial 0%nat) =
      (Return (None, "Clock", "com.vendor.clock"), s') /\
    stdout s' = ["Starting app Clock"; "Error starting app: unable to find process"].
Proof.
  intros E.
  assert (Hr : start_raises tt (scan "Clock" two_clocks) 1%nat
                            (Error "unable to find process")).
  { simpl. exists 512, 2%nat. split; reflexivity. }
  split; [reflexivity|]. split; [exact Hr|].
  exact (open_target_app_catches (E := E) tt "Clock" (initial 0%nat)
           two_clocks 1%nat _ eq_refl Hr).
Defined.

Lemma open_target_app_unknown_target_witness :
  let E := bench true two_clocks [] in
  enumerate_applications tt (env (initial 0%nat)) = (Ok two_clocks, 1%nat) /\
  filter (matches "Calculator") two_clocks = [] /\
  device_spawn tt [""] 1%nat = (Err (Error "unable to find application"), 2%nat) /\
  open_target_app tt "Calculator" (initial 0%nat) =
    (Return (None, "", ""),
     {| FILE_DICT := []; FINISHED := false;
        stdout := ["Starting app Calculator";
                   "Error starting app: unable to find application"];
        bars := [];
        trace := [EnumerateApplications; Spawn [""]];
        env := 2%nat |}).
Proof.
  intros E. split; [reflexivity|]. split; [reflexivity|]. split; [reflexivity|].
  exact (open_target_app_unknown_target (E := E) tt "Calculator" (initial 0%nat)
           two_clocks 1%nat 2%nat _ eq_refl eq_refl eq_refl).
Defined.

(** ** The progress callbacks *)

Lemma progress_all_app (rs1 rs2 : list report) (c : closure) :
  progress_all (rs1 ++ rs2) c = progress_all rs2 (progress_all rs1 c).
Proof.
  revert c. induction rs1 as [|[[f size] sent] rs1 IH]; intros c; [reflexivity|].
  cbn [app progress_all]. apply IH.
Qed.

(** The counter of the bar moves by [sent] minus the baseline. *)
Lemma progress_increment (f : string) (size sent : Z) (c : closure) :
  n (t (progress f size sent c)) - n (t c) = sent - last_sent c.
Proof. unfold progress; cbn [t n tqdm_update set_total set_desc]. lia. Qed.

(** What later calls show depends on the closure through its baseline
    only. *)
Lemma increments_baseline (rs : list report) (c c' : closure) :
  last_sent c = last_sent c' -> increments rs c = increments rs c'.
Proof.
  revert c c'. induction rs as [|[[f size] sent] rs IH]; intros c c' H; [reflexivity|].
  cbn [increments]. rewrite !progress_increment, H. f_equal.
  apply IH. reflexivity.
Qed.

(** The nested [progress], taken alone: once a report with [sent == size]
    has closed a transfer, its baseline [last_sent[0]] is zero, and the
    amounts it would show for the reports of the next transfer are those
    of a fresh closure. *)
Lemma progress_resets_baseline
      (c : closure) (rs1 : list report) (f : string) (size : Z) (rs2 : list report) :
  let c1 := progress_all (rs1 ++ [(f, size, size)]) c in
  last_sent c1 = 0 /\
  increments rs2 c1 = increments rs2 {| t := tqdm_new; last_sent := 0 |}.
Proof.
  intros c1.
  assert (H0 : last_sent c1 = 0).
  { subst c1. rewrite progress_all_app. cbn [progress_all].
    unfold progress; cbn [last_sent]. now rewrite Z.eqb_refl. }
  split; [exact H0 | apply increments_baseline; exact H0].
Qed.

Section ProgressFacts.

Context {E : Externals}.

(** Whatever the message, [on_message] closes the bar [t] of its closure
    as it created it: nothing has called [progress]. *)
Lemma on_message_closes_fresh_bar (message : Message) (s s' : state) :
  on_message message s = (Return tt, s') ->
  exists bs, bars s' = (bs ++ [tqdm_close tqdm_new])%list.
Proof.
  unfold on_message. cbn [t]. unfold bind at 1.
  match goal with |- context [let (_, _) := ?body s in _] =>
    destruct (body s) as [[[]|e|c] s1]
  end; unfold draw; intros Heq; inversion Heq; subst.
  exists (bars s1). reflexivity.
Qed.

End ProgressFacts.


Example progress_two_transfers :
  increments [("a", 10, 4); ("a", 10, 10); ("b", 7, 3); ("b", 7, 7)]
             {| t := tqdm_new; last_sent := 0 |} = [4; 6; 3; 4].
Proof. reflexivity. Qed.

Example progress_broken_transfer :
  increments [("a", 10, 4); ("b", 7, 3); ("b", 7, 7)]
             {| t := tqdm_new; last_sent := 0 |} = [4; -1; 4].
Proof. reflexivity. Qed.

(** ** The completion flag *)

Create HintDb flag.

Section FlagFacts.

Context {E : Externals}.

Lemma keeps_ret {A} (a : A) : keeps_FINISHED (ret a).
Proof. intros s H; exact H. Qed.

Lemma keeps_raise {A} (e : exn) : keeps_FINISHED (raise (A := A) e).
Proof. intros s H; exact H. Qed.

Lemma keeps_print (line : string) : keeps_FINISHED (print line).
Proof. intros s H; exact H. Qed.

Lemma keeps_draw (b : tqdm) : keeps_FINISHED (draw b).
Proof. intros s H; exact H. Qed.

Lemma keeps_FINISHED_set : keeps_FINISHED FINISHED_set.
Proof. intros s _; reflexivity. Qed.

Lemma keeps_setitem (k v : string) : keeps_FINISHED (FILE_DICT_setitem k v).
Proof. intros s H; exact H. Qed.

Lemma keeps_FILE_DICT_getitem (k : string) : keeps_FINISHED (FILE_DICT_getitem k).
Proof.
  intros s H. unfold FILE_DICT_getitem.
  destruct (dict_get k (FILE_DICT s)); exact H.
Qed.

Lemma keeps_items : keeps_FINISHED FILE_DICT_items.
Proof. intros s H; exact H. Qed.

Lemma keeps_getitem (k : string) (v : option string) : keeps_FINISHED (getitem k v).
Proof. destruct v as [x|]; intros s H; exact H. Qed.

Lemma keeps_observe {A} (f : world -> A) : keeps_FINISHED (observe f).
Proof. intros s H; exact H. Qed.

Lemma keeps_external {A} (c : call) (f : world -> result A * world) :
  keeps_FINISHED (external c f).
Proof.
  intros s H. unfold external. destruct (f (env s)) as [[a|e] w]; exact H.
Qed.

Lemma keeps_bind {A B} (m : M A) (k : A -> M B) :
  keeps_FINISHED m -> (forall a, keeps_FINISHED (k a)) -> keeps_FINISHED (bind m k).
Proof.
  intros Hm Hk s H. unfold bind. specialize (Hm s H).
  destruct (m s) as [[a|e|c] s']; cbn [snd] in *; [apply Hk|..]; exact Hm.
Qed.

Lemma keeps_try_except {A} (body : M A) (handler : exn -> M A) :
  keeps_FINISHED body -> (forall e, keeps_FINISHED (handler e)) ->
  keeps_FINISHED (try_except body handler).
Proof.
  intros Hb Hh s H. unfold try_except. specialize (Hb s H).
  destruct (body s) as [[a|e|c] s']; cbn [snd] in *; [|apply Hh|]; exact Hb.
Qed.

#[local] Hint Resolve keeps_ret keeps_raise keeps_print keeps_draw keeps_FINISHED_set
  keeps_setitem keeps_FILE_DICT_getitem keeps_items keeps_getitem
  keeps_observe keeps_external : flag.

(** Builds the proof along the binds and handlers of a function. *)
Ltac flag :=
  repeat first
    [ solve [auto with flag]
    | apply keeps_bind; [|intros ?]
    | apply keeps_try_except; [|intros ?]
    | match goal with
      | |- keeps_FINISHED (match ?o with _ => _ end) => destruct o
      end ].

Lemma keeps_scp_transfer (src dest : string) (recursive : bool) :
  keeps_FINISHED (scp_transfer src dest recursive).
Proof.
  intros s H.
  destruct (scp_transfer_returns src dest recursive s) as (s' & -> & _ & HF & _).
  cbn [snd]. now rewrite HF.
Qed.

#[local] Hint Resolve keeps_scp_transfer : flag.

Lemma keeps_on_message (message : Message) : keeps_FINISHED (on_message message).
Proof.
  unfold on_message.
  destruct message as [[[d p a b]|]]; cbn [payload dump path app done]; flag.
Qed.

Lemma keeps_move_items (path app_name : string) (items : list (string * string)) :
  keeps_FINISHED (move_items path app_name items).
Proof.
  induction items as [|[key value] items IH]; cbn [move_items]; flag.
Qed.

#[local] Hint Resolve keeps_move_items : flag.

Lemma keeps_generate_ipa (path display_name : string) :
  keeps_FINISHED (generate_ipa path display_name).
Proof. unfold generate_ipa. flag. Qed.

Lemma keeps_get_applications (dev : device) : keeps_FINISHED (get_applications dev).
Proof.
  intros s H. unfold get_applications, external.
  destruct (enumerate_applications dev (env s)) as [[a|e] w]; exact H.
Qed.

#[local] Hint Resolve keeps_get_applications : flag.

Lemma keeps_open_target_app (dev : device) (app_id : string) :
  keeps_FINISHED (open_target_app dev app_id).
Proof.
  unfold open_target_app, spawn_attach_resume, attach_only, log_start_error.
  flag.
Qed.

Lemma keeps_run_operation (o : operation) (s : state) :
  FINISHED s = true -> FINISHED (run_operation o s) = true.
Proof.
  destruct o; cbn [run_operation].
  - apply keeps_on_message.
  - apply keeps_scp_transfer.
  - apply keeps_generate_ipa.
  - apply keeps_open_target_app.
  - intros H; exact H.
  - apply keeps_FINISHED_set.
Qed.

(** The three places that set the flag do set it. *)
Lemma done_sets_FINISHED (s : state) :
  FINISHED (run_operation (op_on_message Completed) s) = true.
Proof. reflexivity. Qed.

Lemma main_end_sets_FINISHED (s : state) :
  FINISHED (run_operation op_main_end s) = true.
Proof. reflexivity. Qed.

Lemma failed_assembly_sets_FINISHED (path display_name : string) (s : state) :
  dict_get "app" (FILE_DICT s) = None ->
  FINISHED (run_operation (op_generate_ipa path display_name) s) = true.
Proof.
  intros H. cbn [run_operation]. unfold generate_ipa. plumbing. now rewrite H.
Qed.


End FlagFacts.


(** * Further properties of the module *)

(** ** [extract_path] on any path that holds the marker *)

(** A found index starts the first occurrence: no split of the string
    around [sub] has a shorter head. *)
Lemma find_from_first (sub s : string) (i : Z) :
  0 <= i -> i <= Py.find_from sub s i ->
  exists pre suf,
    s = pre ++ sub ++ suf /\
    Py.find_from sub s i = i + Py.len pre /\
    forall pre' suf', s = pre' ++ sub ++ suf' ->
                      (String.length pre <= String.length pre')%nat.
Proof.
  revert i. induction s as [|a s IH]; intros i Hi; simpl.
  - destruct (Py.startswith sub "") eqn:P; [|lia].
    intros _. destruct (startswith_split _ _ P) as [suf Hs].
    exists "", suf. split; [exact Hs|]. split; [unfold Py.len; simpl; lia|].
    intros; simpl; lia.
  - destruct (Py.startswith sub (String a s)) eqn:P.
    + intros _. destruct (startswith_split _ _ P) as [suf Hs].
      exists "", suf. split; [exact Hs|]. split; [unfold Py.len; simpl; lia|].
      intros; simpl; lia.
    + intros Hf.
      destruct (IH (i + 1)) as (pre & suf & Hs & Hfind & Hmin);
        [lia | destruct (find_from_range sub s (i + 1)); lia |].
      exists (String a pre), suf. split; [simpl; now rewrite Hs|]. split.
      * rewrite Hfind. unfold Py.len; simpl String.length. lia.
      * intros pre' suf' Heq. destruct pre' as [|b pre'].
        -- simpl in Heq. rewrite Heq, startswith_app in P. discriminate.
        -- simpl in Heq. injection Heq as _ Heq.
           simpl. apply le_n_S. exact (Hmin pre' suf' Heq).
Qed.

(** X1: whenever the path holds ['.app/'], once or several times,
    [extract_path] returns what follows its first occurrence. *)
Theorem extract_path_first_marker (origin_path : string) :
  Py.contains ".app/" origin_path = true ->
  exists pre suf,
    origin_path = pre ++ ".app/" ++ suf /\
    extract_path origin_path = suf /\
    forall pre' suf', origin_path = pre' ++ ".app/" ++ suf' ->
                      (String.length pre <= String.length pre')%nat.
Proof.
  intros Hc. unfold Py.contains, Py.find in Hc. apply Z.leb_le in Hc.
  destruct (find_from_first ".app/" origin_path 0 ltac:(lia) Hc)
    as (pre & suf & Hs & Hf & Hmin).
  exists pre, suf. split; [exact Hs|]. split; [|exact Hmin].
  unfold extract_path, Py.find; cbv zeta. rewrite Hf, Hs.
  unfold Py.slice_from, Py.len.
  replace (0 + Z.of_nat (String.length pre) + 5 <? 0) with false
    by (symmetry; apply Z.ltb_ge; lia).
  replace (0 + Z.of_nat (String.length pre) + 5)
    with (Z.of_nat (String.length pre + 5)) by lia.
  rewrite Nat2Z.id, skip_add, skip_app. reflexivity.
Qed.

Lemma extract_path_first_marker_witness :
  Py.contains ".app/" "/var/Foo.app/PlugIns/Ext.app/Ext" = true /\
  exists pre suf,
    "/var/Foo.app/PlugIns/Ext.app/Ext" = pre ++ ".app/" ++ suf /\
    extract_path "/var/Foo.app/PlugIns/Ext.app/Ext" = suf /\
    forall pre' suf', "/var/Foo.app/PlugIns/Ext.app/Ext" = pre' ++ ".app/" ++ suf' ->
                      (String.length pre <= String.length pre')%nat.
Proof.
  split; [reflexivity|].
  apply (extract_path_first_marker "/var/Foo.app/PlugIns/Ext.app/Ext"). reflexivity.
Defined.

(** ** [FILE_DICT] as a dictionary *)

Lemma dict_get_set_same (k v : string) (d : dict) :
  dict_get k (dict_set k v d) = Some v.
Proof.
  induction d as [|[k' v'] d IH]; simpl.
  - now rewrite string_eqb_refl.
  - destruct (string_eqb_spec k k') as [->|ne]; simpl.
    + now rewrite string_eqb_refl.
    + destruct (string_eqb_spec k k'); [contradiction | exact IH].
Qed.

Lemma dict_get_set_other (k k' v : string) (d : dict) :
  k' <> k -> dict_get k' (dict_set k v d) = dict_get k' d.
Proof.
  intros ne. induction d as [|[k0 v0] d IH]; simpl.
  - destruct (string_eqb_spec k' k); [contradiction | reflexivity].
  - destruct (string_eqb_spec k k0) as [->|ne0]; simpl.
    + destruct (string_eqb_spec k' k0); [contradiction | reflexivity].
    + destruct (string_eqb_spec k' k0); [reflexivity | exact IH].
Qed.

Lemma dict_set_twice (k v1 v2 : string) (d : dict) :
  dict_set k v2 (dict_set k v1 d) = dict_set k v2 d.
Proof.
  induction d as [|[k' v'] d IH]; simpl.
  - now rewrite string_eqb_refl.
  - destruct (string_eqb_spec k k') as [->|ne]; simpl.
    + now rewrite string_eqb_refl.
    + destruct (string_eqb_spec k k'); [contradiction | now rewrite IH].
Qed.

Create HintDb table.

Section TableFacts.

Context {E : Externals}.

Variable P : dict -> Prop.

Lemma kd_ret {A} (a : A) : keeps_dict P (ret a).
Proof. intros s H; exact H. Qed.

Lemma kd_raise {A} (e : exn) : keeps_dict P (raise (A := A) e).
Proof. intros s H; exact H. Qed.

Lemma kd_print (line : string) : keeps_dict P (print line).
Proof. intros s H; exact H. Qed.

Lemma kd_draw (b : tqdm) : keeps_dict P (draw b).
Proof. intros s H; exact H. Qed.

Lemma kd_FINISHED_set : keeps_dict P FINISHED_set.
Proof. intros s H; exact H. Qed.

Lemma kd_getitem_table (k : string) : keeps_dict P (FILE_DICT_getitem k).
Proof.
  intros s H. unfold FILE_DICT_getitem.
  destruct (dict_get k (FILE_DICT s)); exact H.
Qed.

Lemma kd_items : keeps_dict P FILE_DICT_items.
Proof. intros s H; exact H. Qed.

Lemma kd_getitem (k : string) (v : option string) : keeps_dict P (getitem k v).
Proof. destruct v as [x|]; intros s H; exact H. Qed.

Lemma kd_observe {A} (f : world -> A) : keeps_dict P (observe f).
Proof. intros s H; exact H. Qed.

Lemma kd_external {A} (c : call) (f : world -> result A * world) :
  keeps_dict P (external c f).
Proof.
  intros s H. unfold external. destruct (f (env s)) as [[a|e] w]; exact H.
Qed.

Lemma kd_bind {A B} (m : M A) (k : A -> M B) :
  keeps_dict P m -> (forall a, keeps_dict P (k a)) -> keeps_dict P (bind m k).
Proof.
  intros Hm Hk s H. unfold bind. specialize (Hm s H).
  destruct (m s) as [[a|e|c] s']; cbn [snd] in *; [apply Hk|..]; exact Hm.
Qed.

Lemma kd_try_except {A} (body : M A) (handler : exn -> M A) :
  keeps_dict P body -> (forall e, keeps_dict P (handler e)) ->
  keeps_dict P (try_except body handler).
Proof.
  intros Hb Hh s H. unfold try_except. specialize (Hb s H).
  destruct (body s) as [[a|e|c] s']; cbn [snd] in *; [|apply Hh|]; exact Hb.
Qed.

Lemma kd_scp_transfer (src dest : string) (recursive : bool) :
  keeps_dict P (scp_transfer src dest recursive).
Proof.
  intros s H.
  destruct (scp_transfer_returns src dest recursive s) as (s' & -> & HD & _).
  cbn [snd]. now rewrite HD.
Qed.

Lemma kd_get_applications (dev : device) : keeps_dict P (get_applications dev).
Proof.
  intros s H. unfold get_applications, external.
  destruct (enumerate_applications dev (env s)) as [[a|e] w]; exact H.
Qed.

#[local] Hint Resolve kd_ret kd_raise kd_print kd_draw kd_FINISHED_set
  kd_getitem_table kd_items kd_getitem kd_observe kd_external
  kd_scp_transfer kd_get_applications : table.

Ltac table :=
  repeat first
    [ solve [auto with table]
    | apply kd_bind; [|intros ?]
    | apply kd_try_except; [|intros ?]
    | match goal with
      | |- keeps_dict P (match ?o with _ => _ end) => destruct o
      end ].

Lemma kd_move_items (path app_name : string) (items : list (string * string)) :
  keeps_dict P (move_items path app_name items).
Proof.
  induction items as [|[key value] items IH]; cbn [move_items]; table.
Qed.

#[local] Hint Resolve kd_move_items : table.

Lemma kd_generate_ipa (path display_name : string) :
  keeps_dict P (generate_ipa path display_name).
Proof. unfold generate_ipa. table. Qed.

Lemma kd_open_target_app (dev : device) (app_id : string) :
  keeps_dict P (open_target_app dev app_id).
Proof.
  unfold open_target_app, spawn_attach_resume, attach_only, log_start_error.
  table.
Qed.

End TableFacts.

Section TableTheorems.

Context {E : Externals}.

(** X3: [FILE_DICT] is written by [on_message] only: [scp_transfer],
    [generate_ipa] and [open_target_app] leave it as it is, however the
    world answers. *)
Theorem FILE_DICT_written_by_on_message_only (s : state) :
  (forall src dest recursive,
      FILE_DICT (snd (scp_transfer src dest recursive s)) = FILE_DICT s) /\
  (forall path display_name,
      FILE_DICT (snd (generate_ipa path display_name s)) = FILE_DICT s) /\
  (forall dev app_id,
      FILE_DICT (snd (open_target_app dev app_id s)) = FILE_DICT s).
Proof.
  repeat split; intros.
  - now apply (kd_scp_transfer (fun d => d = FILE_DICT s)).
  - now apply (kd_generate_ipa (fun d => d = FILE_DICT s)).
  - now apply (kd_open_target_app (fun d => d = FILE_DICT s)).
Qed.

(** X4: for a payload that carries ['path'] whenever it carries ['dump'],
    [on_message] returns; it has written the entry of the dump, then the
    entry ['app'] of the bundle, and the flag is set exactly when it was
    set before or the payload carries ['done']. *)
Theorem on_message_payload (p : Payload) (s : state) :
  (dump p <> None -> path p <> None) ->
  exists s',
    on_message {| payload := Some p |} s = (Return tt, s') /\
    FILE_DICT s' = registered p (FILE_DICT s) /\
    FINISHED s' = FINISHED s || done p.
Proof.
  intros Hp. destruct p as [d o a b]. cbn [dump path] in Hp.
  unfold on_message, registered. cbn [payload dump path app done t].
  destruct d as [dump_path|].
  - destruct o as [origin_path|]; [|now elim Hp].
    destruct (scp_transfer_returns dump_path PAYLOAD_PATH false s)
      as (s1 & H1 & D1 & F1 & _).
    unfold bind at 1 2 3 4. rewrite H1. plumbing.
    destruct a as [app_path|].
    + match goal with |- context [scp_transfer app_path PAYLOAD_PATH true ?st] =>
        destruct (scp_transfer_returns app_path PAYLOAD_PATH true st)
          as (s2 & H2 & D2 & F2 & _)
      end.
      rewrite H2. plumbing.
      cbn [FILE_DICT FINISHED] in D2, F2.
      destruct b; plumbing; eexists; (split; [reflexivity|]); fields;
        rewrite D2, ?F2, D1, ?F1; split; try reflexivity;
        now rewrite ?orb_true_r, ?orb_false_r.
    + destruct b; plumbing; eexists; (split; [reflexivity|]); fields;
        rewrite D1, ?F1; split; try reflexivity;
        now rewrite ?orb_true_r, ?orb_false_r.
  - plumbing. destruct a as [app_path|].
    + destruct (scp_transfer_returns app_path PAYLOAD_PATH true s)
        as (s2 & H2 & D2 & F2 & _).
      rewrite H2. plumbing.
      destruct b; plumbing; eexists; (split; [reflexivity|]); fields;
        rewrite D2, ?F2; split; try reflexivity;
        now rewrite ?orb_true_r, ?orb_false_r.
    + destruct b; plumbing; eexists; (split; [reflexivity|]); fields;
        split; try reflexivity; now rewrite ?orb_true_r, ?orb_false_r.
Qed.

(** X5: a payload with ['dump'] and without ['path'] makes [on_message]
    raise [KeyError('path')] once the pull is over: the state is the one
    [scp_transfer] left, so nothing is registered, a bundle of the same
    payload is not pulled and a ['done'] of the same payload does not set
    the flag. *)
Theorem on_message_missing_path (dump_path : string) (a : option string) (b : bool)
        (s : state) :
  on_message {| payload := Some {| dump := Some dump_path; path := None;
                                   app := a; done := b |} |} s =
    (Raise (KeyError "path"), snd (scp_transfer dump_path PAYLOAD_PATH false s)).
Proof.
  destruct (scp_transfer_returns dump_path PAYLOAD_PATH false s) as (s1 & H1 & _).
  unfold on_message. cbn [payload dump path app done t].
  unfold bind at 1 2 3 4. rewrite H1. reflexivity.
Qed.

(** X6: two binary notifications whose staged files have the same
    basename leave one entry: the second assignment replaces the first,
    and [FILE_DICT] is as if the first notification had not been
    registered. *)
Theorem on_message_same_basename (dump1 origin1 dump2 origin2 : string) (s : state) :
  os_path.basename dump1 = os_path.basename dump2 ->
  exists s2,
    on_messages [FileReady_binary dump1 origin1; FileReady_binary dump2 origin2] s
      = (Return tt, s2) /\
    FILE_DICT s2 = dict_set (os_path.basename dump2) (extract_path origin2) (FILE_DICT s) /\
    dict_get (os_path.basename dump1) (FILE_DICT s2) = Some (extract_path origin2).
Proof.
  intros Hb.
  destruct (on_message_binary dump1 origin1 s) as (s1 & H1 & D1 & _).
  destruct (on_message_binary dump2 origin2 s1) as (s2 & H2 & D2 & _).
  exists s2. cbn [on_messages]. unfold bind at 1. rewrite H1.
  unfold bind at 1. rewrite H2. split; [reflexivity|].
  assert (HD : FILE_DICT s2 =
               dict_set (os_path.basename dump2) (extract_path origin2) (FILE_DICT s)).
  { rewrite D2, D1, Hb. apply dict_set_twice. }
  split; [exact HD|]. rewrite HD, Hb. apply dict_get_set_same.
Qed.

End TableTheorems.

Lemma on_message_payload_witness :
  let E := bench true [] [] in
  let p := {| dump := Some "/var/mobile/Documents/Foo.fid";
              path := Some "/var/Bundle/Foo.app/Foo";
              app := Some "/var/Bundle/Foo.app"; done := true |} in
  (dump p <> None -> path p <> None) /\
  exists s',
    on_message {| payload := Some p |} (initial 0%nat) = (Return tt, s') /\
    FILE_DICT s' = [("Foo.fid", "Foo"); ("app", "Foo.app")] /\
    FINISHED s' = true.
Proof.
  intros E p.
  assert (Hp : dump p <> None -> path p <> None) by (intros _; discriminate).
  split; [exact Hp|].
  exact (on_message_payload (E := E) p (initial 0%nat) Hp).
Defined.

Lemma on_message_same_basename_witness :
  let E := bench true [] [] in
  os_path.basename "/var/a/Foo.fid" = os_path.basename "/var/b/Foo.fid" /\
  exists s2,
    on_messages [FileReady_binary "/var/a/Foo.fid" "/var/X.app/Frameworks/A.framework/Foo";
                 FileReady_binary "/var/b/Foo.fid" "/var/X.app/PlugIns/B.appex/Foo"]
                (initial 0%nat) = (Return tt, s2) /\
    FILE_DICT s2 = [("Foo.fid", "PlugIns/B.appex/Foo")] /\
    dict_get "Foo.fid" (FILE_DICT s2) = Some "PlugIns/B.appex/Foo".
Proof.
  intros E. split; [reflexivity|].
  exact (on_message_same_basename (E := E) "/var/a/Foo.fid" _ "/var/b/Foo.fid" _
           (initial 0%nat) eq_refl).
Defined.

(** ** More on [scp_transfer] *)

Lemma join_to_absolute (a b : string) :
  Py.startswith (String os_path.sep EmptyString) b = true -> os_path.join a b = b.
Proof. intros Hb. unfold os_path.join, os_path.join2. now rewrite Hb. Qed.

Section TransferTheorems.

Context {E : Externals}.

(** X7: [scp_transfer] never raises and never exits: whatever the copy
    channel, the file system and [chmod] do, it returns, having asked for
    the pull first and left [FINISHED] alone. *)
Theorem scp_transfer_never_raises (src dest : string) (recursive : bool) (s : state) :
  exists s' cs,
    scp_transfer src dest recursive s = (Return tt, s') /\
    trace s' = (trace s ++ ScpGet src dest recursive :: cs)%list /\
    FINISHED s' = FINISHED s.
Proof.
  destruct (scp_transfer_returns src dest recursive s) as (s' & H1 & _ & HF & cs & HT).
  exists s', cs. auto.
Qed.

(** X8: for an absolute remote path [src], the path whose existence is
    tested and whose mode is changed after the pull is [src] itself, read
    as a path of the host, not the copy under [dest]. *)
Theorem scp_transfer_chmod_absolute (src dest : string) (recursive : bool) (s : state)
        (rs : list report) (w w' : world) :
  Py.startswith "/" src = true ->
  scp_get src dest recursive (env s) = (rs, Ok tt, w) ->
  os_path_exists src w = true ->
  chmod_755 src w = (Ok tt, w') ->
  scp_transfer src dest recursive s =
    (Return tt,
     {| FILE_DICT := FILE_DICT s; FINISHED := FINISHED s;
        stdout := stdout s ++ ["Transferring " ++ src ++ " to " ++ dest ++ " via SCP";
                               "Changing permissions for " ++ src];
        bars := bars s ++ map bar_of rs;
        trace := trace s ++ [ScpGet src dest recursive; Chmod755 src];
        env := w' |}).
Proof.
  intros Habs Hget Hex Hch. unfold scp_transfer, SCPClient_get. plumbing.
  rewrite Hget, report_all_progress_bar. fields.
  rewrite (join_to_absolute dest src Habs), Hex. fields. rewrite Hch. fields.
  rewrite <- !app_assoc. reflexivity.
Qed.

(** X9: when the pull succeeded and [chmod] ends with a non-zero status,
    the [CalledProcessError] is logged as a permission error and
    [scp_transfer] returns. *)
Theorem scp_transfer_chmod_failure (src dest : string) (recursive : bool) (s : state)
        (rs : list report) (w w' : world) (msg : string) :
  scp_get src dest recursive (env s) = (rs, Ok tt, w) ->
  os_path_exists (os_path.join dest src) w = true ->
  chmod_755 (os_path.join dest src) w = (Err (CalledProcessError msg), w') ->
  scp_transfer src dest recursive s =
    (Return tt,
     {| FILE_DICT := FILE_DICT s; FINISHED := FINISHED s;
        stdout := stdout s ++ ["Transferring " ++ src ++ " to " ++ dest ++ " via SCP";
                               "Changing permissions for " ++ os_path.join dest src;
                               "Error setting file permissions: " ++ msg];
        bars := bars s ++ map bar_of rs;
        trace := trace s ++ [ScpGet src dest recursive;
                             Chmod755 (os_path.join dest src)];
        env := w' |}).
Proof.
  intros Hget Hex Hch. unfold scp_transfer, SCPClient_get. plumbing.
  rewrite Hget, report_all_progress_bar. fields.
  rewrite Hex. fields. rewrite Hch. fields.
  rewrite <- !app_assoc. reflexivity.
Qed.

End TransferTheorems.

Lemma scp_transfer_chmod_absolute_witness :
  let E := lab true true None in
  let src := "/var/containers/Bundle/Application/1F/Foo.app" in
  Py.startswith "/" src = true /\
  scp_get src "/tmp/Payload" true (env (initial 0%nat)) = ([(src, 10, 10)], Ok tt, 1%nat) /\
  os_path_exists src 1%nat = true /\
  chmod_755 src 1%nat = (Ok tt, 2%nat) /\
  trace (snd (scp_transfer src "/tmp/Payload" true (initial 0%nat))) =
    [ScpGet src "/tmp/Payload" true; Chmod755 src].
Proof.
  intros E src. repeat (split; [reflexivity|]).
  exact (f_equal (fun r => trace (snd r))
           (scp_transfer_chmod_absolute (E := E) src "/tmp/Payload" true (initial 0%nat)
              _ _ _ eq_refl eq_refl eq_refl eq_refl)).
Defined.

Lemma scp_transfer_chmod_failure_witness :
  let E := lab true false None in
  let src := "/var/mobile/Documents/Foo.fid" in
  scp_get src "/tmp/Payload" false (env (initial 0%nat)) = ([(src, 10, 10)], Ok tt, 1%nat) /\
  os_path_exists (os_path.join "/tmp/Payload" src) 1%nat = true /\
  chmod_755 (os_path.join "/tmp/Payload" src) 1%nat
    = (Err (CalledProcessError "exit status 1"), 2%nat) /\
  fst (scp_transfer src "/tmp/Payload" false (initial 0%nat)) = Return tt /\
  stdout (snd (scp_transfer src "/tmp/Payload" false (initial 0%nat))) =
    ["Transferring /var/mobile/Documents/Foo.fid to /tmp/Payload via SCP";
     "Changing permissions for /var/mobile/Documents/Foo.fid";
     "Error setting file permissions: exit status 1"].
Proof.
  intros E src. repeat (split; [reflexivity|]).
  pose proof (scp_transfer_chmod_failure (E := E) src "/tmp/Payload" false
                (initial (0%nat : @world E)) _ _ _ _ eq_refl eq_refl eq_refl) as Hx.
  rewrite Hx. split; reflexivity.
Defined.

(** ** More on [generate_ipa] *)

Section AssemblerTheorems.

Context {E : Externals}.

(** The loop of [generate_ipa] returns or raises; either way it has only
    issued moves and touched nothing but the world. *)
Lemma move_items_outcome (path app_name : string) (items : list (string * string))
      (s : state) :
  exists o s' ms,
    move_items path app_name items s = (o, s') /\
    (o = Return tt \/ exists e, o = Raise e) /\
    FILE_DICT s' = FILE_DICT s /\ FINISHED s' = FINISHED s /\
    stdout s' = stdout s /\ bars s' = bars s /\
    trace s' = (trace s ++ ms)%list /\ Forall is_move ms.
Proof.
  revert s. induction items as [|[key value] items IH]; intros s.
  - exists (Return tt), s, []. rewrite app_nil_r. repeat split; auto.
  - rewrite move_items_cons. destruct (negb (key =? "app")%string).
    + unfold bind, external.
      destruct (shutil_move (os_path.join path key)
                            (os_path.join3 path app_name value) (env s))
        as [[[]|e] w].
      * match goal with |- context [move_items path app_name items ?st] =>
          destruct (IH st) as (o & s' & ms & -> & Ho & HD & HF & HS & HB & HT & Hm)
        end.
        cbn [FILE_DICT FINISHED stdout bars trace] in *.
        exists o, s', (Move (os_path.join path key)
                            (os_path.join3 path app_name value) :: ms).
        split; [destruct o; reflexivity|]. repeat split; auto.
        -- rewrite HT, <- app_assoc. reflexivity.
        -- constructor; [exact I | exact Hm].
      * eexists _, _, [_]. split; [reflexivity|].
        repeat split; eauto. repeat constructor.
    + unfold bind, ret.
      destruct (IH s) as (o & s' & ms & -> & Ho & HD & HF & HS & HB & HT & Hm).
      exists o, s', ms. split; [destruct o; reflexivity|]. repeat split; auto.
Qed.

(** The ways [generate_ipa] can end. *)
Lemma generate_ipa_cases (path display_name : string) (s : state) :
  exists s',
    generate_ipa path display_name s = (Return tt, s') /\
    (FINISHED s' = true \/
     (FINISHED s' = FINISHED s /\
      exists ms archive,
        trace s' = (trace s ++ ms ++ [Zip archive PAYLOAD_DIR TEMP_DIR;
                                      Rmtree PAYLOAD_PATH])%list /\
        Forall is_move ms)).
Proof.
  unfold generate_ipa. plumbing.
  destruct (dict_get "app" (FILE_DICT s)) as [app_name|]; fields.
  - match goal with |- context [move_items path app_name ?items ?st] =>
      destruct (move_items_outcome path app_name items st)
        as (o & s1 & ms & -> & [->|[e ->]] & HD & HF & HS & HB & HT & Hm)
    end; cbn [FINISHED trace] in HF, HT.
    + match goal with |- context [zip_qr ?a ?b ?c (env s1)] =>
        destruct (zip_qr a b c (env s1)) as [[[]|e] w2] eqn:Hz
      end; fields.
      * destruct (shutil_rmtree PAYLOAD_PATH w2) as [[[]|e] w3]; fields.
        -- eexists. split; [reflexivity|]. right. fields. split; [exact HF|].
           eexists ms, _. split; [|exact Hm].
           rewrite HT, <- !app_assoc. reflexivity.
        -- eexists. split; [reflexivity|]. left. reflexivity.
      * eexists. split; [reflexivity|]. left. reflexivity.
    + eexists. split; [reflexivity|]. left. reflexivity.
  - eexists. split; [reflexivity|]. left. reflexivity.
Qed.

(** X10: [generate_ipa] never raises and never exits: every failure of a
    move, of [zip] or of [rmtree], and a missing ['app'] key, ends in a
    normal return. *)
Theorem generate_ipa_never_raises (path display_name : string) (s : state) :
  exists s', generate_ipa path display_name s = (Return tt, s').
Proof.
  destruct (generate_ipa_cases path display_name s) as (s' & H1 & _). eauto.
Qed.

(** The loop over a table in two parts is the loop over the first part,
    then over the second. *)
Lemma move_items_app (path app_name : string) (xs ys : list (string * string))
      (s : state) :
  move_items path app_name (xs ++ ys) s =
    bind (move_items path app_name xs) (fun _ => move_items path app_name ys) s.
Proof.
  revert s. induction xs as [|[key value] xs IH]; intros s; [reflexivity|].
  cbn [Datatypes.app]. rewrite !move_items_cons.
  match goal with |- bind ?m _ s = _ => generalize m; intros m0 end.
  unfold bind. destruct (m0 s) as [[[]|e|c] s1]; [|reflexivity|reflexivity].
  rewrite IH. reflexivity.
Qed.

(** When every move succeeds, the loop issues exactly [moves_of] and
    leaves the world those moves made. *)
Lemma move_items_moved (path app_name : string) (items : list (string * string))
      (s : state) (w' : world) :
  moved path app_name items (env s) w' ->
  move_items path app_name items s =
    (Return tt,
     {| FILE_DICT := FILE_DICT s; FINISHED := FINISHED s; stdout := stdout s;
        bars := bars s;
        trace := trace s ++ moves_of path app_name items;
        env := w' |}).
Proof.
  revert s. induction items as [|[key value] items IH]; intros s Hm.
  - cbn [moved] in Hm. subst w'. cbn [move_items moves_of filter map].
    rewrite app_nil_r. destruct s; reflexivity.
  - rewrite move_items_cons. cbn [moved] in Hm. unfold moves_of.
    cbn [filter fst snd]. destruct (negb (key =? "app")%string).
    + destruct Hm as (w1 & Hmv & Hrest). unfold bind, external. rewrite Hmv.
      match goal with |- context [move_items path app_name items ?st] =>
        rewrite (IH st Hrest)
      end.
      fields. cbn [map fst snd]. unfold moves_of.
      rewrite <- app_assoc. reflexivity.
    + unfold bind, ret. rewrite (IH s Hm). reflexivity.
Qed.

(** When the moves of [done] succeed and the next one raises, the loop
    stops there. *)
Lemma move_items_failed (path app_name key value : string)
      (done rest : list (string * string)) (s : state) (w1 w2 : world) (e : exn) :
  moved path app_name done (env s) w1 ->
  key <> "app" ->
  shutil_move (os_path.join path key) (os_path.join3 path app_name value) w1
    = (Err e, w2) ->
  move_items path app_name (done ++ (key, value) :: rest) s =
    (Raise e,
     {| FILE_DICT := FILE_DICT s; FINISHED := FINISHED s; stdout := stdout s;
        bars := bars s;
        trace := trace s ++ moves_of path app_name done
                   ++ [Move (os_path.join path key)
                            (os_path.join3 path app_name value)];
        env := w2 |}).
Proof.
  intros Hm Hk Hmv. rewrite move_items_app. unfold bind at 1.
  rewrite (move_items_moved _ _ _ _ _ Hm). rewrite move_items_cons.
  destruct (string_eqb_spec key "app") as [->|_]; [now elim Hk|].
  cbn [negb]. unfold bind, external. fields. rewrite Hmv. fields.
  rewrite <- app_assoc. reflexivity.
Qed.

(** X11: when the moves succeeded and [zip] raises, [generate_ipa] logs
    the error, sets [FINISHED] and returns, and [zip] is its last command:
    the staging directory is not removed. *)
Theorem generate_ipa_zip_failure (path display_name app_name : string) (s : state)
        (w1 w2 : world) (e : exn) :
  dict_get "app" (FILE_DICT s) = Some app_name ->
  moved path app_name (FILE_DICT s) (env s) w1 ->
  zip_qr (os_path.join (os_getcwd w1) (display_name ++ ".ipa"))
         PAYLOAD_DIR TEMP_DIR w1 = (Err e, w2) ->
  generate_ipa path display_name s =
    (Return tt,
     {| FILE_DICT := FILE_DICT s;
        FINISHED := true;
        stdout := stdout s ++
          ["Generating " ++ dquote ++ (display_name ++ ".ipa") ++ dquote;
           "Error generating IPA: " ++ str_exn e];
        bars := bars s;
        trace := trace s ++ moves_of path app_name (FILE_DICT s)
                   ++ [Zip (os_path.join (os_getcwd w1) (display_name ++ ".ipa"))
                           PAYLOAD_DIR TEMP_DIR];
        env := w2 |}).
Proof.
  intros Happ Hm Hzip. unfold generate_ipa. plumbing. rewrite Happ. fields.
  match goal with |- context [move_items path app_name (FILE_DICT s) ?st] =>
    rewrite (move_items_moved path app_name (FILE_DICT s) st w1 Hm)
  end. fields. rewrite Hzip. fields.
  rewrite <- !app_assoc. reflexivity.
Qed.

(** X12: when ['app'] is in [FILE_DICT] and the moves, [zip] and
    [rmtree] of this run succeed, [generate_ipa] moves every entry but
    ['app'], in insertion order, to its place under the bundle, zips
    [Payload] from [TEMP_DIR] into [<display_name>.ipa] in the working
    directory it finds after the moves, then removes [PAYLOAD_PATH]; it
    logs one line and leaves [FINISHED] alone. *)
Theorem generate_ipa_success (path display_name app_name : string) (s : state)
        (w1 w2 w3 : world) :
  dict_get "app" (FILE_DICT s) = Some app_name ->
  moved path app_name (FILE_DICT s) (env s) w1 ->
  zip_qr (os_path.join (os_getcwd w1) (display_name ++ ".ipa"))
         PAYLOAD_DIR TEMP_DIR w1 = (Ok tt, w2) ->
  shutil_rmtree PAYLOAD_PATH w2 = (Ok tt, w3) ->
  generate_ipa path display_name s =
    (Return tt,
     {| FILE_DICT := FILE_DICT s;
        FINISHED := FINISHED s;
        stdout := stdout s ++
          ["Generating " ++ dquote ++ (display_name ++ ".ipa") ++ dquote];
        bars := bars s;
        trace := trace s ++ moves_of path app_name (FILE_DICT s)
                   ++ [Zip (os_path.join (os_getcwd w1) (display_name ++ ".ipa"))
                           PAYLOAD_DIR TEMP_DIR;
                       Rmtree PAYLOAD_PATH];
        env := w3 |}).
Proof.
  intros Happ Hm Hzip Hrm. unfold generate_ipa. plumbing. rewrite Happ. fields.
  match goal with |- context [move_items path app_name (FILE_DICT s) ?st] =>
    rewrite (move_items_moved path app_name (FILE_DICT s) st w1 Hm)
  end. fields. rewrite Hzip. fields. rewrite Hrm. fields.
  rewrite <- !app_assoc. reflexivity.
Qed.

(** A failed move ends [generate_ipa] in the state it left. *)
Lemma generate_ipa_move_failure_aux (path display_name app_name key value : string)
      (done rest : list (string * string)) (s : state) (w1 w2 : world) (e : exn) :
  FILE_DICT s = (done ++ (key, value) :: rest)%list ->
  dict_get "app" (FILE_DICT s) = Some app_name ->
  key <> "app" ->
  moved path app_name done (env s) w1 ->
  shutil_move (os_path.join path key) (os_path.join3 path app_name value) w1
    = (Err e, w2) ->
  generate_ipa path display_name s =
    (Return tt,
     {| FILE_DICT := FILE_DICT s;
        FINISHED := true;
        stdout := stdout s ++
          ["Generating " ++ dquote ++ (display_name ++ ".ipa") ++ dquote;
           "Error generating IPA: " ++ str_exn e];
        bars := bars s;
        trace := trace s ++ moves_of path app_name done
                   ++ [Move (os_path.join path key)
                            (os_path.join3 path app_name value)];
        env := w2 |}).
Proof.
  intros Hfd Happ Hk Hm Hmv. unfold generate_ipa. plumbing. rewrite Happ. fields.
  match goal with |- context [move_items path app_name (FILE_DICT s) ?st] =>
    replace (move_items path app_name (FILE_DICT s) st)
      with (move_items path app_name (done ++ (key, value) :: rest) st)
      by (now rewrite Hfd);
    rewrite (move_items_failed path app_name key value done rest st w1 w2 e Hm Hk Hmv)
  end. fields.
  rewrite <- !app_assoc. reflexivity.
Qed.

(** X28: when a move raises, after the moves of the entries before it
    succeeded, [generate_ipa] logs the error, sets [FINISHED] and returns;
    the failed move is its last command: the entries after it are not
    moved, nothing is zipped and the staging directory is not removed. *)
Theorem generate_ipa_move_failure (path display_name app_name key value : string)
        (done rest : list (string * string)) (s : state) (w1 w2 : world) (e : exn) :
  FILE_DICT s = (done ++ (key, value) :: rest)%list ->
  dict_get "app" (FILE_DICT s) = Some app_name ->
  key <> "app" ->
  moved path app_name done (env s) w1 ->
  shutil_move (os_path.join path key) (os_path.join3 path app_name value) w1
    = (Err e, w2) ->
  generate_ipa path display_name s =
    (Return tt,
     {| FILE_DICT := FILE_DICT s;
        FINISHED := true;
        stdout := stdout s ++
          ["Generating " ++ dquote ++ (display_name ++ ".ipa") ++ dquote;
           "Error generating IPA: " ++ str_exn e];
        bars := bars s;
        trace := trace s ++ moves_of path app_name done
                   ++ [Move (os_path.join path key)
                            (os_path.join3 path app_name value)];
        env := w2 |}).
Proof. apply generate_ipa_move_failure_aux. Qed.

(** X29: when the moves and [zip] succeeded and [rmtree] raises,
    [generate_ipa] logs the error, sets [FINISHED] and returns: the
    archive has been written and the flag tells a failure all the same. *)
Theorem generate_ipa_rmtree_failure (path display_name app_name : string) (s : state)
        (w1 w2 w3 : world) (e : exn) :
  dict_get "app" (FILE_DICT s) = Some app_name ->
  moved path app_name (FILE_DICT s) (env s) w1 ->
  zip_qr (os_path.join (os_getcwd w1) (display_name ++ ".ipa"))
         PAYLOAD_DIR TEMP_DIR w1 = (Ok tt, w2) ->
  shutil_rmtree PAYLOAD_PATH w2 = (Err e, w3) ->
  generate_ipa path display_name s =
    (Return tt,
     {| FILE_DICT := FILE_DICT s;
        FINISHED := true;
        stdout := stdout s ++
          ["Generating " ++ dquote ++ (display_name ++ ".ipa") ++ dquote;
           "Error generating IPA: " ++ str_exn e];
        bars := bars s;
        trace := trace s ++ moves_of path app_name (FILE_DICT s)
                   ++ [Zip (os_path.join (os_getcwd w1) (display_name ++ ".ipa"))
                           PAYLOAD_DIR TEMP_DIR;
                       Rmtree PAYLOAD_PATH];
        env := w3 |}).
Proof.
  intros Happ Hm Hzip Hrm. unfold generate_ipa. plumbing. rewrite Happ. fields.
  match goal with |- context [move_items path app_name (FILE_DICT s) ?st] =>
    rewrite (move_items_moved path app_name (FILE_DICT s) st w1 Hm)
  end. fields. rewrite Hzip. fields. rewrite Hrm. fields.
  rewrite <- !app_assoc. reflexivity.
Qed.

(** After the moves of [done], the next command of [generate_ipa] is the
    move of the entry that follows, however that move and the rest end. *)
Lemma generate_ipa_next_move (path display_name app_name key value : string)
      (done rest : list (string * string)) (s : state) (w1 : world) :
  FILE_DICT s = (done ++ (key, value) :: rest)%list ->
  dict_get "app" (FILE_DICT s) = Some app_name ->
  key <> "app" ->
  moved path app_name done (env s) w1 ->
  exists cs,
    trace (snd (generate_ipa path display_name s)) =
      (trace s ++ moves_of path app_name done
         ++ Move (os_path.join path key) (os_path.join3 path app_name value) :: cs)%list.
Proof.
  intros Hfd Happ Hk Hm.
  destruct (shutil_move (os_path.join path key)
                        (os_path.join3 path app_name value) w1)
    as [[[]|e] w2] eqn:Hmv.
  - unfold generate_ipa. plumbing. rewrite Happ. fields.
    match goal with |- context [move_items path app_name (FILE_DICT s) ?st] =>
      replace (move_items path app_name (FILE_DICT s) st)
        with (move_items path app_name (done ++ (key, value) :: rest) st)
        by (now rewrite Hfd);
      rewrite (move_items_app path app_name done ((key, value) :: rest) st);
      unfold bind at 1;
      rewrite (move_items_moved path app_name done st w1 Hm)
    end.
    rewrite move_items_cons.
    destruct (string_eqb_spec key "app") as [->|_]; [now elim Hk|].
    cbn [negb]. unfold bind at 1, external at 1. fields. rewrite Hmv.
    match goal with |- context [move_items path app_name rest ?st] =>
      destruct (move_items_outcome path app_name rest st)
        as (o & s3 & ms & -> & [->|[e ->]] & _ & _ & _ & _ & HT & _)
    end; cbn [trace] in HT.
    + match goal with |- context [zip_qr ?a ?b ?c (env s3)] =>
        destruct (zip_qr a b c (env s3)) as [[[]|e] w4]
      end; fields.
      * destruct (shutil_rmtree PAYLOAD_PATH w4) as [[[]|e] w5]; fields;
          rewrite HT, <- !app_assoc; cbn [Datatypes.app]; eexists; reflexivity.
      * rewrite HT, <- !app_assoc; cbn [Datatypes.app]; eexists; reflexivity.
    + fields. rewrite HT, <- !app_assoc; cbn [Datatypes.app]; eexists; reflexivity.
  - exists []. rewrite (generate_ipa_move_failure_aux path display_name app_name
                          key value done rest s w1 w2 e Hfd Happ Hk Hm Hmv).
    reflexivity.
Qed.

(** X13: an entry whose originating path holds no ['.app/'] and has a
    ['/'] as its fifth character is moved by [generate_ipa] to the
    absolute path that follows the first four characters, outside the
    staging directory and the bundle. *)
Theorem unmarked_origin_moves_outside
        (path display_name app_name key origin_path head dest : string)
        (done rest : list (string * string)) (s : state) (w1 : world) :
  Py.contains ".app/" origin_path = false ->
  origin_path = head ++ dest ->
  String.length head = 4%nat ->
  Py.startswith "/" dest = true ->
  FILE_DICT s = (done ++ (key, extract_path origin_path) :: rest)%list ->
  dict_get "app" (FILE_DICT s) = Some app_name ->
  key <> "app" ->
  moved path app_name done (env s) w1 ->
  extract_path origin_path = dest /\
  exists cs,
    trace (snd (generate_ipa path display_name s)) =
      (trace s ++ moves_of path app_name done
         ++ Move (os_path.join path key) dest :: cs)%list.
Proof.
  intros Hc Ho Hl Habs Hfd Happ Hk Hm.
  assert (Hx : extract_path origin_path = dest).
  { unfold Py.contains, Py.find in Hc. apply Z.leb_gt in Hc.
    unfold extract_path, Py.find; cbv zeta.
    destruct (find_from_range ".app/" origin_path 0) as [Hf|Hf]; [|lia].
    rewrite Hf, Ho. change (Py.slice_from (-1 + 5) (head ++ dest))
      with (Py.skip 4 (head ++ dest)).
    rewrite <- Hl. apply skip_app. }
  split; [exact Hx|].
  destruct (generate_ipa_next_move path display_name app_name key
              (extract_path origin_path) done rest s w1 Hfd Happ Hk Hm) as (cs & HT).
  exists cs. rewrite HT, Hx. unfold os_path.join3.
  change (os_path.join2 ?x dest) with (os_path.join x dest).
  now rewrite (join_to_absolute _ _ Habs).
Qed.

End AssemblerTheorems.

Ltac moved_here :=
  vm_compute; repeat (eexists; split; [reflexivity|]); reflexivity.

Lemma generate_ipa_zip_failure_witness :
  let E := fragile true false true in
  let s := {| FILE_DICT := three_entries; FINISHED := true; stdout := [];
              bars := []; trace := []; env := 0%nat |} in
  dict_get "app" (FILE_DICT s) = Some "Foo.app" /\
  moved PAYLOAD_PATH "Foo.app" (FILE_DICT s) (env s) 2%nat /\
  zip_qr (os_path.join (os_getcwd 2%nat) ("Foo" ++ ".ipa")) PAYLOAD_DIR TEMP_DIR 2%nat
    = (Err (CalledProcessError "zip returned non-zero exit status 12"), 3%nat) /\
  trace (snd (generate_ipa PAYLOAD_PATH "Foo" s)) =
    [Move "/tmp/Payload/Bar.fid" "/tmp/Payload/Foo.app/Frameworks/Bar.framework/Bar";
     Move "/tmp/Payload/Foo.fid" "/tmp/Payload/Foo.app/Foo";
     Zip "/home/user/Foo.ipa" "Payload" "/tmp"].
Proof.
  intros E s.
  assert (Hm : moved PAYLOAD_PATH "Foo.app" (FILE_DICT s) (env s) 2%nat) by moved_here.
  split; [reflexivity|]. split; [exact Hm|]. split; [reflexivity|].
  rewrite (generate_ipa_zip_failure (E := E) PAYLOAD_PATH "Foo" "Foo.app" s
             2%nat 3%nat _ eq_refl Hm eq_refl).
  reflexivity.
Defined.

Lemma generate_ipa_success_witness :
  let E := fragile true true true in
  let s := {| FILE_DICT := three_entries; FINISHED := true; stdout := [];
              bars := []; trace := []; env := 0%nat |} in
  dict_get "app" (FILE_DICT s) = Some "Foo.app" /\
  moved PAYLOAD_PATH "Foo.app" (FILE_DICT s) (env s) 2%nat /\
  zip_qr (os_path.join (os_getcwd 2%nat) ("Foo" ++ ".ipa")) PAYLOAD_DIR TEMP_DIR 2%nat
    = (Ok tt, 3%nat) /\
  shutil_rmtree PAYLOAD_PATH 3%nat = (Ok tt, 4%nat) /\
  trace (snd (generate_ipa PAYLOAD_PATH "Foo" s)) =
    [Move "/tmp/Payload/Bar.fid" "/tmp/Payload/Foo.app/Frameworks/Bar.framework/Bar";
     Move "/tmp/Payload/Foo.fid" "/tmp/Payload/Foo.app/Foo";
     Zip "/home/user/Foo.ipa" "Payload" "/tmp";
     Rmtree "/tmp/Payload"].
Proof.
  intros E s.
  assert (Hm : moved PAYLOAD_PATH "Foo.app" (FILE_DICT s) (env s) 2%nat) by moved_here.
  split; [reflexivity|]. split; [exact Hm|]. split; [reflexivity|].
  split; [reflexivity|].
  rewrite (generate_ipa_success (E := E) PAYLOAD_PATH "Foo" "Foo.app" s
             2%nat 3%nat 4%nat eq_refl Hm eq_refl eq_refl).
  reflexivity.
Defined.

Lemma generate_ipa_move_failure_witness :
  let E := fragile false true true in
  let s := {| FILE_DICT := three_entries; FINISHED := false; stdout := [];
              bars := []; trace := []; env := 0%nat |} in
  let done := [("app", "Foo.app"); ("Bar.fid", "Frameworks/Bar.framework/Bar")] in
  FILE_DICT s = (done ++ [("Foo.fid", "Foo")])%list /\
  dict_get "app" (FILE_DICT s) = Some "Foo.app" /\
  "Foo.fid" <> "app" /\
  moved PAYLOAD_PATH "Foo.app" done (env s) 1%nat /\
  shutil_move (os_path.join PAYLOAD_PATH "Foo.fid")
              (os_path.join3 PAYLOAD_PATH "Foo.app" "Foo") 1%nat
    = (Err (Error "No such file or directory"), 2%nat) /\
  generate_ipa PAYLOAD_PATH "Foo" s =
    (Return tt,
     {| FILE_DICT := three_entries; FINISHED := true;
        stdout := ["Generating " ++ dquote ++ "Foo.ipa" ++ dquote;
                   "Error generating IPA: No such file or directory"];
        bars := [];
        trace := [Move "/tmp/Payload/Bar.fid"
                       "/tmp/Payload/Foo.app/Frameworks/Bar.framework/Bar";
                  Move "/tmp/Payload/Foo.fid" "/tmp/Payload/Foo.app/Foo"];
        env := 2%nat |}).
Proof.
  intros E s done.
  assert (Hm : moved PAYLOAD_PATH "Foo.app" done (env s) 1%nat) by moved_here.
  assert (Hk : "Foo.fid" <> "app") by discriminate.
  split; [reflexivity|]. split; [reflexivity|]. split; [exact Hk|].
  split; [exact Hm|]. split; [reflexivity|].
  exact (generate_ipa_move_failure (E := E) PAYLOAD_PATH "Foo" "Foo.app" "Foo.fid" "Foo"
           done [] s 1%nat 2%nat _ eq_refl eq_refl Hk Hm eq_refl).
Defined.

Lemma generate_ipa_rmtree_failure_witness :
  let E := fragile true true false in
  let s := {| FILE_DICT := three_entries; FINISHED := false; stdout := [];
              bars := []; trace := []; env := 0%nat |} in
  dict_get "app" (FILE_DICT s) = Some "Foo.app" /\
  moved PAYLOAD_PATH "Foo.app" (FILE_DICT s) (env s) 2%nat /\
  zip_qr (os_path.join (os_getcwd 2%nat) ("Foo" ++ ".ipa")) PAYLOAD_DIR TEMP_DIR 2%nat
    = (Ok tt, 3%nat) /\
  shutil_rmtree PAYLOAD_PATH 3%nat = (Err (Error "Directory not empty"), 4%nat) /\
  FINISHED (snd (generate_ipa PAYLOAD_PATH "Foo" s)) = true /\
  stdout (snd (generate_ipa PAYLOAD_PATH "Foo" s)) =
    ["Generating " ++ dquote ++ "Foo.ipa" ++ dquote;
     "Error generating IPA: Directory not empty"].
Proof.
  intros E s.
  assert (Hm : moved PAYLOAD_PATH "Foo.app" (FILE_DICT s) (env s) 2%nat) by moved_here.
  split; [reflexivity|]. split; [exact Hm|]. split; [reflexivity|].
  split; [reflexivity|].
  rewrite (generate_ipa_rmtree_failure (E := E) PAYLOAD_PATH "Foo" "Foo.app" s
             2%nat 3%nat 4%nat _ eq_refl Hm eq_refl eq_refl).
  split; reflexivity.
Defined.

Lemma unmarked_origin_moves_outside_witness :
  let E := fragile true true true in
  let origin_path := "/var/mobile/Library/Caches/Foo" in
  let s := {| FILE_DICT := [("app", "Foo.app"); ("Foo.fid", extract_path origin_path)];
              FINISHED := true; stdout := []; bars := []; trace := [];
              env := 0%nat |} in
  Py.contains ".app/" origin_path = false /\
  origin_path = "/var" ++ "/mobile/Library/Caches/Foo" /\
  String.length "/var" = 4%nat /\
  Py.startswith "/" "/mobile/Library/Caches/Foo" = true /\
  FILE_DICT s = ([("app", "Foo.app")] ++ [("Foo.fid", extract_path origin_path)])%list /\
  dict_get "app" (FILE_DICT s) = Some "Foo.app" /\
  "Foo.fid" <> "app" /\
  moved PAYLOAD_PATH "Foo.app" [("app", "Foo.app")] (env s) 0%nat /\
  extract_path origin_path = "/mobile/Library/Caches/Foo" /\
  exists cs,
    trace (snd (generate_ipa PAYLOAD_PATH "Foo" s)) =
      ([] ++ moves_of PAYLOAD_PATH "Foo.app" [("app", "Foo.app")]
          ++ Move (os_path.join PAYLOAD_PATH "Foo.fid") "/mobile/Library/Caches/Foo" :: cs)%list.
Proof.
  intros E origin_path s.
  assert (Hm : moved PAYLOAD_PATH "Foo.app" [("app", "Foo.app")] (env s) 0%nat)
    by reflexivity.
  assert (Hk : "Foo.fid" <> "app") by discriminate.
  repeat (split; [first [reflexivity | assumption]|]).
  exact (proj2 (unmarked_origin_moves_outside (E := E) PAYLOAD_PATH "Foo" "Foo.app"
                  "Foo.fid" origin_path "/var" "/mobile/Library/Caches/Foo"
                  [("app", "Foo.app")] [] s 0%nat
                  eq_refl eq_refl eq_refl eq_refl eq_refl eq_refl Hk Hm)).
Defined.

(** ** More on the session manager *)

Section SessionTheorems.

Context {E : Externals}.

(** X14: for a target that is not running (no match, or a match with pid
    0), when the device cooperates [open_target_app] spawns the bundle
    identifier, attaches to the new pid and only then resumes it, logs no
    error and returns the session. *)
Theorem open_target_app_spawns (dev : device) (app_id : string) (s : state)
        (apps : list Application) (w w1 w2 w3 : world) (z : Z) (sess : session) :
  enumerate_applications dev (env s) = (Ok apps, w) ->
  not_pid (fst (fst (scan app_id apps))) = true ->
  device_spawn dev [snd (scan app_id apps)] w = (Ok z, w1) ->
  device_attach dev z w1 = (Ok sess, w2) ->
  device_resume dev z w2 = (Ok tt, w3) ->
  open_target_app dev app_id s =
    (Return (Some sess, snd (fst (scan app_id apps)), snd (scan app_id apps)),
     {| FILE_DICT := FILE_DICT s; FINISHED := FINISHED s;
        stdout := stdout s ++ ["Starting app " ++ app_id];
        bars := bars s;
        trace := trace s ++ [EnumerateApplications; Spawn [snd (scan app_id apps)];
                             Attach z; Resume z];
        env := w3 |}).
Proof.
  intros Henum Hnot Hspawn Hattach Hresume.
  rewrite (open_target_app_enumerated _ _ _ _ _ Henum).
  destruct (scan app_id apps) as [[p display_name] bundle_identifier].
  cbn [fst snd] in *. rewrite Hnot.
  unfold spawn_attach_resume, log_start_error. plumbing.
  rewrite Hspawn. fields. rewrite Hattach. fields. rewrite Hresume. fields.
  rewrite <- !app_assoc. reflexivity.
Qed.

(** X15: for a target that is running, [open_target_app] attaches to its
    pid and issues nothing else: no spawn, no resume. *)
Theorem open_target_app_attaches (dev : device) (app_id : string) (s : state)
        (apps : list Application) (w w1 : world) (z : Z) (sess : session) :
  enumerate_applications dev (env s) = (Ok apps, w) ->
  fst (fst (scan app_id apps)) = pid_int z -> z <> 0 ->
  device_attach dev z w = (Ok sess, w1) ->
  open_target_app dev app_id s =
    (Return (Some sess, snd (fst (scan app_id apps)), snd (scan app_id apps)),
     {| FILE_DICT := FILE_DICT s; FINISHED := FINISHED s;
        stdout := stdout s ++ ["Starting app " ++ app_id];
        bars := bars s;
        trace := trace s ++ [EnumerateApplications; Attach z];
        env := w1 |}).
Proof.
  intros Henum Hpid Hz Hattach.
  rewrite (open_target_app_enumerated _ _ _ _ _ Henum).
  destruct (scan app_id apps) as [[p display_name] bundle_identifier].
  cbn [fst snd] in *. subst p. cbn [not_pid].
  destruct (Z.eqb_spec z 0) as [|_]; [contradiction|].
  unfold attach_only, log_start_error. plumbing. rewrite Hattach. fields.
  rewrite <- !app_assoc. reflexivity.
Qed.

(** X16: when [resume] raises after a successful spawn and attach, the
    error is logged and the session is returned all the same: the caller
    gets a session of a process that was left suspended. *)
Theorem open_target_app_resume_failure (dev : device) (app_id : string) (s : state)
        (apps : list Application) (w w1 w2 w3 : world) (z : Z) (sess : session)
        (e : exn) :
  enumerate_applications dev (env s) = (Ok apps, w) ->
  not_pid (fst (fst (scan app_id apps))) = true ->
  device_spawn dev [snd (scan app_id apps)] w = (Ok z, w1) ->
  device_attach dev z w1 = (Ok sess, w2) ->
  device_resume dev z w2 = (Err e, w3) ->
  open_target_app dev app_id s =
    (Return (Some sess, snd (fst (scan app_id apps)), snd (scan app_id apps)),
     {| FILE_DICT := FILE_DICT s; FINISHED := FINISHED s;
        stdout := stdout s ++ ["Starting app " ++ app_id;
                               "Error starting app: " ++ str_exn e];
        bars := bars s;
        trace := trace s ++ [EnumerateApplications; Spawn [snd (scan app_id apps)];
                             Attach z; Resume z];
        env := w3 |}).
Proof.
  intros Henum Hnot Hspawn Hattach Hresume.
  rewrite (open_target_app_enumerated _ _ _ _ _ Henum).
  destruct (scan app_id apps) as [[p display_name] bundle_identifier].
  cbn [fst snd] in *. rewrite Hnot.
  unfold spawn_attach_resume, log_start_error. plumbing.
  rewrite Hspawn. fields. rewrite Hattach. fields. rewrite Hresume. fields.
  rewrite <- !app_assoc. reflexivity.
Qed.

(** A failed enumeration ends [open_target_app] in [sys.exit]. *)
Lemma open_target_app_enumeration_failure_aux (dev : device) (app_id : string)
      (s : state) (e : exn) (w : world) :
  enumerate_applications dev (env s) = (Err e, w) ->
  exists s',
    open_target_app dev app_id s =
      (SystemExit ("Failed to enumerate applications: " ++ str_exn e), s').
Proof.
  intros Henum. unfold open_target_app, get_applications.
  unfold bind at 1 2, print at 1, external at 1. fields. rewrite Henum.
  eexists. reflexivity.
Qed.

(** X17: when the enumeration raises, [open_target_app] ends in
    [sys.exit] with the message of [get_applications]; nothing is spawned
    or attached, and the [SystemExit] is not an [Exception] a caller's
    [except Exception] would stop. *)
Theorem open_target_app_enumeration_failure (dev : device) (app_id : string)
        (s : state) (e : exn) (w : world) :
  enumerate_applications dev (env s) = (Err e, w) ->
  open_target_app dev app_id s =
    (SystemExit ("Failed to enumerate applications: " ++ str_exn e),
     {| FILE_DICT := FILE_DICT s; FINISHED := FINISHED s;
        stdout := stdout s ++ ["Starting app " ++ app_id];
        bars := bars s;
        trace := trace s ++ [EnumerateApplications];
        env := w |}) /\
  forall A (handler : exn -> M A) (k : option session * string * string -> M A),
    fst (try_except (bind (open_target_app dev app_id) k) handler s) =
      SystemExit ("Failed to enumerate applications: " ++ str_exn e).
Proof.
  intros Henum.
  assert (H1 : open_target_app dev app_id s =
    (SystemExit ("Failed to enumerate applications: " ++ str_exn e),
     {| FILE_DICT := FILE_DICT s; FINISHED := FINISHED s;
        stdout := stdout s ++ ["Starting app " ++ app_id];
        bars := bars s;
        trace := trace s ++ [EnumerateApplications];
        env := w |})).
  { unfold open_target_app, get_applications.
    unfold bind at 1 2, print at 1, external at 1. fields. rewrite Henum.
    reflexivity. }
  split; [exact H1|]. intros A handler k.
  unfold try_except, bind. rewrite H1. reflexivity.
Qed.

(** X18: no [Exception] ever leaves [open_target_app]: it returns, or it
    exits because the enumeration failed. *)
Theorem open_target_app_never_raises (dev : device) (app_id : string) (s : state) :
  (exists r s', open_target_app dev app_id s = (Return r, s')) \/
  (exists status s', open_target_app dev app_id s = (SystemExit status, s')).
Proof.
  destruct (enumerate_applications dev (env s)) as [[apps|e] w] eqn:Henum.
  - left. rewrite (open_target_app_enumerated _ _ _ _ _ Henum).
    destruct (scan app_id apps) as [[p display_name] bundle_identifier].
    unfold bind, ret.
    destruct (not_pid p); [|destruct p].
    + match goal with |- context [spawn_attach_resume dev ?b ?st] =>
        destruct (spawn_attach_resume_returns dev b st) as (sess & s' & cs & -> & _)
      end. eauto.
    + match goal with |- context [spawn_attach_resume dev ?b ?st] =>
        destruct (spawn_attach_resume_returns dev b st) as (sess & s' & cs & -> & _)
      end. eauto.
    + match goal with |- context [attach_only dev ?z ?st] =>
        destruct (attach_only_returns dev z st) as (sess & s' & -> & _)
      end. eauto.
  - right. destruct (open_target_app_enumeration_failure_aux dev app_id s e w Henum)
      as [s' Hs]. eauto.
Qed.

End SessionTheorems.

Lemma open_target_app_spawns_witness :
  let E := bench true two_clocks [] in
  enumerate_applications tt (env (initial 0%nat)) = (Ok two_clocks, 1%nat) /\
  scan "com.example.clock" two_clocks = (pid_int 0, "Clock", "com.example.clock") /\
  not_pid (fst (fst (scan "com.example.clock" two_clocks))) = true /\
  device_spawn tt ["com.example.clock"] 1%nat = (Ok 4242, 2%nat) /\
  device_attach tt 4242 2%nat = (Ok 4242, 3%nat) /\
  device_resume tt 4242 3%nat = (Ok tt, 4%nat) /\
  open_target_app tt "com.example.clock" (initial 0%nat) =
    (Return (Some 4242, "Clock", "com.example.clock"),
     {| FILE_DICT := []; FINISHED := false;
        stdout := ["Starting app com.example.clock"]; bars := [];
        trace := [EnumerateApplications; Spawn ["com.example.clock"];
                  Attach 4242; Resume 4242];
        env := 4%nat |}).
Proof.
  intros E. repeat (split; [reflexivity|]).
  exact (open_target_app_spawns (E := E) tt "com.example.clock" (initial 0%nat)
           two_clocks 1%nat 2%nat 3%nat 4%nat 4242 4242
           eq_refl eq_refl eq_refl eq_refl eq_refl).
Defined.

Lemma open_target_app_attaches_witness :
  let E := bench true two_clocks [] in
  enumerate_applications tt (env (initial 0%nat)) = (Ok two_clocks, 1%nat) /\
  fst (fst (scan "Notes" two_clocks)) = pid_int 77 /\ 77 <> 0 /\
  device_attach tt 77 1%nat = (Ok 77, 2%nat) /\
  open_target_app tt "Notes" (initial 0%nat) =
    (Return (Some 77, "Notes", "com.example.notes"),
     {| FILE_DICT := []; FINISHED := false;
        stdout := ["Starting app Notes"]; bars := [];
        trace := [EnumerateApplications; Attach 77];
        env := 2%nat |}).
Proof.
  intros E. split; [reflexivity|]. split; [reflexivity|]. split; [lia|].
  split; [reflexivity|].
  exact (open_target_app_attaches (E := E) tt "Notes" (initial 0%nat)
           two_clocks 1%nat 2%nat 77 77 eq_refl eq_refl ltac:(lia) eq_refl).
Defined.

Lemma open_target_app_resume_failure_witness :
  let E := lab true true (Some two_clocks) in
  let dev : device := ("iPhone", "usb") in
  enumerate_applications dev (env (initial 0%nat)) = (Ok two_clocks, 1%nat) /\
  not_pid (fst (fst (scan "com.example.clock" two_clocks))) = true /\
  device_spawn dev ["com.example.clock"] 1%nat = (Ok 4242, 2%nat) /\
  device_attach dev 4242 2%nat = (Ok 4242, 3%nat) /\
  device_resume dev 4242 3%nat = (Err (Error "unable to resume"), 4%nat) /\
  open_target_app dev "com.example.clock" (initial 0%nat) =
    (Return (Some 4242, "Clock", "com.example.clock"),
     {| FILE_DICT := []; FINISHED := false;
        stdout := ["Starting app com.example.clock";
                   "Error starting app: unable to resume"];
        bars := [];
        trace := [EnumerateApplications; Spawn ["com.example.clock"];
                  Attach 4242; Resume 4242];
        env := 4%nat |}).
Proof.
  intros E dev. repeat (split; [reflexivity|]).
  exact (open_target_app_resume_failure (E := E) dev "com.example.clock" (initial 0%nat)
           two_clocks 1%nat 2%nat 3%nat 4%nat 4242 4242 _
           eq_refl eq_refl eq_refl eq_refl eq_refl).
Defined.

Lemma open_target_app_enumeration_failure_witness :
  let E := lab true true None in
  let dev : device := ("iPhone", "usb") in
  enumerate_applications dev (env (initial 0%nat)) = (Err (Error "device is gone"), 1%nat) /\
  open_target_app dev "Clock" (initial 0%nat) =
    (SystemExit "Failed to enumerate applications: device is gone",
     {| FILE_DICT := []; FINISHED := false;
        stdout := ["Starting app Clock"]; bars := [];
        trace := [EnumerateApplications];
        env := 1%nat |}).
Proof.
  intros E dev. split; [reflexivity|].
  exact (proj1 (open_target_app_enumeration_failure (E := E) dev "Clock" (initial 0%nat)
                  _ 1%nat eq_refl)).
Defined.

(** ** [list_applications], [create_dir], [get_usb_iphone] *)

Ltac host_plumbing :=
  cbv beta iota zeta delta
    [bind ret raise try_except print draw observe external library getitem
     FINISHED_set FILE_DICT_setitem FILE_DICT_getitem FILE_DICT_items];
  cbn [fst snd FILE_DICT FINISHED stdout bars trace env].

Lemma rstrip_app_char (c : char) (s : string) :
  rstrip c (s ++ String c EmptyString) = rstrip c s.
Proof.
  induction s as [|a s IH].
  - simpl. now rewrite char_eqb_refl.
  - cbn [String.append rstrip]. now rewrite IH.
Qed.

Section ListingTheorems.

Context {E : Externals}.

(** X19: [list_applications] never prints a table. For an empty
    enumeration it prints [No applications found.]; for any other it
    raises, before a single line is printed, because it reads the local
    [app] that only the printing loop further down assigns. *)
Theorem list_applications_never_lists (dev : device) (s : state)
        (apps : list Application) (w : world) :
  enumerate_applications dev (env s) = (Ok apps, w) ->
  list_applications dev s =
    match apps with
    | [] =>
        (Return tt,
         {| FILE_DICT := FILE_DICT s; FINISHED := FINISHED s;
            stdout := stdout s ++ ["No applications found."];
            bars := bars s;
            trace := trace s ++ [EnumerateApplications];
            env := w |})
    | _ :: _ =>
        (Raise (UnboundLocalError "app"),
         {| FILE_DICT := FILE_DICT s; FINISHED := FINISHED s;
            stdout := stdout s;
            bars := bars s;
            trace := trace s ++ [EnumerateApplications];
            env := w |})
    end.
Proof.
  intros Henum. unfold list_applications, get_applications.
  unfold bind at 1, external at 1. rewrite Henum.
  destruct apps; reflexivity.
Qed.

End ListingTheorems.

Lemma list_applications_never_lists_witness :
  let E := bench true two_clocks [] in
  enumerate_applications tt (env (initial 0%nat)) = (Ok two_clocks, 1%nat) /\
  list_applications tt (initial 0%nat) =
    (Raise (UnboundLocalError "app"),
     {| FILE_DICT := []; FINISHED := false; stdout := []; bars := [];
        trace := [EnumerateApplications]; env := 1%nat |}).
Proof.
  intros E. split; [reflexivity|].
  exact (list_applications_never_lists (E := E) tt (initial 0%nat)
           two_clocks 1%nat eq_refl).
Defined.

Section StagingTheorems.

Context {E : Externals} {H : Host}.

(** X20: when nothing exists at the path, stripped of its trailing
    backslashes, [create_dir] removes nothing and calls [os.makedirs]; an
    [OSError] of [makedirs] is logged and [create_dir] returns, any other
    exception leaves it. *)
Theorem create_dir_fresh (path : string) (s : state)
        (r : option os_failure) (w : world) :
  os_path_exists (rstrip "092"%char path) (env s) = false ->
  os_makedirs (rstrip "092"%char path) (env s) = (r, w) ->
  create_dir path s =
    match r with
    | None =>
        (Return tt,
         {| FILE_DICT := FILE_DICT s; FINISHED := FINISHED s; stdout := stdout s;
            bars := bars s; trace := trace s; env := w |})
    | Some (OSError err) =>
        (Return tt,
         {| FILE_DICT := FILE_DICT s; FINISHED := FINISHED s;
            stdout := stdout s ++ ["Error creating directory: " ++ err];
            bars := bars s; trace := trace s; env := w |})
    | Some (NotOSError e) =>
        (Raise e,
         {| FILE_DICT := FILE_DICT s; FINISHED := FINISHED s; stdout := stdout s;
            bars := bars s; trace := trace s; env := w |})
    end.
Proof.
  intros Hex Hmk. unfold create_dir. host_plumbing. rewrite Hex. fields.
  rewrite Hmk. destruct r as [[err|e]|]; reflexivity.
Qed.

(** X21: when the path exists and [shutil.rmtree] raises, the exception
    leaves [create_dir]: it is outside the [try], so it is not logged and
    [os.makedirs] is not called. *)
Theorem create_dir_rmtree_failure (path : string) (s : state) (e : exn) (w : world) :
  os_path_exists (rstrip "092"%char path) (env s) = true ->
  shutil_rmtree (rstrip "092"%char path) (env s) = (Err e, w) ->
  create_dir path s =
    (Raise e,
     {| FILE_DICT := FILE_DICT s; FINISHED := FINISHED s; stdout := stdout s;
        bars := bars s;
        trace := trace s ++ [Rmtree (rstrip "092"%char path)];
        env := w |}).
Proof.
  intros Hex Hrm. unfold create_dir. host_plumbing. rewrite Hex. fields.
  rewrite Hrm. reflexivity.
Qed.

(** X22: when the path exists and can be removed, [create_dir] removes
    the whole tree first and creates the directory anew in the world the
    removal left. *)
Theorem create_dir_replaces (path : string) (s : state) (w w' : world) :
  os_path_exists (rstrip "092"%char path) (env s) = true ->
  shutil_rmtree (rstrip "092"%char path) (env s) = (Ok tt, w) ->
  os_makedirs (rstrip "092"%char path) w = (None, w') ->
  create_dir path s =
    (Return tt,
     {| FILE_DICT := FILE_DICT s; FINISHED := FINISHED s; stdout := stdout s;
        bars := bars s;
        trace := trace s ++ [Rmtree (rstrip "092"%char path)];
        env := w' |}).
Proof.
  intros Hex Hrm Hmk. unfold create_dir. host_plumbing. rewrite Hex. fields.
  rewrite Hrm. fields. rewrite Hmk. reflexivity.
Qed.

(** X23: a trailing backslash of the path is ignored: [create_dir] does
    the same with and without it. *)
Theorem create_dir_trailing_backslash (path : string) (s : state) :
  create_dir (path ++ String "092"%char EmptyString) s = create_dir path s.
Proof. unfold create_dir. now rewrite rstrip_app_char. Qed.

(** X24: when the first enumeration holds a device of the wanted kind,
    [get_usb_iphone] returns the first such device, of that kind whatever
    comes before it in the enumeration, without printing or waiting. *)
Theorem get_usb_iphone_first (fuel : nat) (s : state)
        (all rest : list device) (dev : device) (w : world) :
  enumerate_devices (env s) = (Ok all, w) ->
  filter (fun d => (dev_type d =? device_type)%string) all = dev :: rest ->
  get_usb_iphone (S fuel) s =
    (Ended (Return dev),
     {| FILE_DICT := FILE_DICT s; FINISHED := FINISHED s; stdout := stdout s;
        bars := bars s; trace := trace s; env := w |}) /\
  dev_type dev = device_type.
Proof.
  intros Henum Hf. split.
  - cbn [get_usb_iphone]. unfold library. rewrite Henum, Hf. reflexivity.
  - assert (Hin : In dev (filter (fun d => (dev_type d =? device_type)%string) all))
      by (rewrite Hf; left; reflexivity).
    apply filter_In in Hin. destruct Hin as [_ Hk]. now apply string_eqb_eq.
Qed.

(** X25: whenever [get_usb_iphone] returns a device, after any number of
    rounds, the device is of the wanted kind. *)
Theorem get_usb_iphone_kind (fuel : nat) (s s' : state) (dev : device) :
  get_usb_iphone fuel s = (Ended (Return dev), s') ->
  dev_type dev = device_type.
Proof.
  revert s. induction fuel as [|fuel IH]; intros s; cbn [get_usb_iphone].
  - discriminate.
  - unfold library.
    destruct (enumerate_devices (env s)) as [[all|e] w]; [|discriminate].
    destruct (filter (fun d => (dev_type d =? device_type)%string) all)
      as [|d rest] eqn:Hf.
    + match goal with |- context [FINISHED ?st] => destruct (FINISHED st) end;
        [apply IH | discriminate].
    + intros Heq. injection Heq as Hd _. subst d.
      assert (Hin : In dev (filter (fun d => (dev_type d =? device_type)%string) all))
        by (rewrite Hf; left; reflexivity).
      apply filter_In in Hin. destruct Hin as [_ Hk]. now apply string_eqb_eq.
Qed.

(** X26: when the first enumeration holds no device of the wanted kind
    and [FINISHED] is not set, [get_usb_iphone] prints its notice once and
    then sleeps in [FINISHED.wait()]: it does not enumerate again, however
    long it is given. *)
Theorem get_usb_iphone_sleeps (fuel : nat) (s : state) (all : list device) (w : world) :
  enumerate_devices (env s) = (Ok all, w) ->
  filter (fun d => (dev_type d =? device_type)%string) all = [] ->
  FINISHED s = false ->
  get_usb_iphone (S fuel) s =
    (Asleep,
     {| FILE_DICT := FILE_DICT s; FINISHED := false;
        stdout := stdout s ++ ["Waiting for USB device..."];
        bars := bars s; trace := trace s; env := w |}).
Proof.
  intros Henum Hf Hfin. cbn [get_usb_iphone]. unfold library.
  rewrite Henum, Hf. cbn [print snd FINISHED]. rewrite Hfin. reflexivity.
Qed.

End StagingTheorems.

Lemma create_dir_fresh_witness :
  let E := lab true true None in
  let H := lab_host [] in
  let path := "/opt/dump" ++ String "092"%char (String "092"%char EmptyString) in
  rstrip "092"%char path = "/opt/dump" /\
  os_path_exists (rstrip "092"%char path) (env (initial 0%nat)) = false /\
  os_makedirs (rstrip "092"%char path) (env (initial 0%nat))
    = (Some (OSError "Permission denied"), 1%nat) /\
  create_dir path (initial 0%nat) =
    (Return tt,
     {| FILE_DICT := []; FINISHED := false;
        stdout := ["Error creating directory: Permission denied"];
        bars := []; trace := []; env := 1%nat |}).
Proof.
  intros E H path. repeat (split; [reflexivity|]).
  exact (create_dir_fresh (E := E) (H := H) path (initial 0%nat) _ 1%nat
           eq_refl eq_refl).
Defined.

Lemma create_dir_rmtree_failure_witness :
  let E := lab true true None in
  let H := lab_host [] in
  os_path_exists (rstrip "092"%char "/var/root") (env (initial 0%nat)) = true /\
  shutil_rmtree (rstrip "092"%char "/var/root") (env (initial 0%nat))
    = (Err (Error "Permission denied"), 1%nat) /\
  create_dir "/var/root" (initial 0%nat) =
    (Raise (Error "Permission denied"),
     {| FILE_DICT := []; FINISHED := false; stdout := []; bars := [];
        trace := [Rmtree "/var/root"]; env := 1%nat |}).
Proof.
  intros E H. repeat (split; [reflexivity|]).
  exact (create_dir_rmtree_failure (E := E) (H := H) "/var/root" (initial 0%nat)
           _ 1%nat eq_refl eq_refl).
Defined.

Lemma create_dir_replaces_witness :
  let E := lab true true None in
  let H := lab_host [] in
  os_path_exists (rstrip "092"%char "/tmp/Payload") (env (initial 0%nat)) = true /\
  shutil_rmtree (rstrip "092"%char "/tmp/Payload") (env (initial 0%nat)) = (Ok tt, 1%nat) /\
  os_makedirs (rstrip "092"%char "/tmp/Payload") 1%nat = (None, 2%nat) /\
  create_dir "/tmp/Payload" (initial 0%nat) =
    (Return tt,
     {| FILE_DICT := []; FINISHED := false; stdout := []; bars := [];
        trace := [Rmtree "/tmp/Payload"]; env := 2%nat |}).
Proof.
  intros E H. repeat (split; [reflexivity|]).
  exact (create_dir_replaces (E := E) (H := H) "/tmp/Payload" (initial 0%nat)
           1%nat 2%nat eq_refl eq_refl eq_refl).
Defined.

Lemma get_usb_iphone_first_witness :
  let E := lab true true None in
  let plugged := [("simulator", "local"); ("office", "remote");
                  ("iPhone", "usb"); ("iPad", "usb")] in
  let H := lab_host plugged in
  enumerate_devices (env (initial 0%nat)) = (Ok plugged, 1%nat) /\
  filter (fun d => (dev_type d =? device_type)%string) plugged
    = [("iPhone", "usb"); ("iPad", "usb")] /\
  get_usb_iphone 1 (initial 0%nat) =
    (Ended (Return ("iPhone", "usb")),
     {| FILE_DICT := []; FINISHED := false; stdout := []; bars := [];
        trace := []; env := 1%nat |}) /\
  dev_type ("iPhone", "usb") = device_type.
Proof.
  intros E plugged H. split; [reflexivity|]. split; [reflexivity|].
  exact (get_usb_iphone_first (E := E) (H := H) 0 (initial 0%nat) plugged
           [("iPad", "usb")] ("iPhone", "usb") 1%nat eq_refl eq_refl).
Defined.

Lemma get_usb_iphone_kind_witness :
  let E := lab true true None in
  let H := lab_host [("office", "remote"); ("iPad", "usb")] in
  get_usb_iphone 3 (initial 0%nat) =
    (Ended (Return ("iPad", "usb")),
     {| FILE_DICT := []; FINISHED := false; stdout := []; bars := [];
        trace := []; env := 1%nat |}) /\
  dev_type ("iPad", "usb") = device_type.
Proof.
  intros E H. split; [reflexivity|].
  exact (get_usb_iphone_kind (E := E) (H := H) 3 (initial 0%nat) _ ("iPad", "usb")
           eq_refl).
Defined.

Lemma get_usb_iphone_sleeps_witness :
  let E := lab true true None in
  let H := lab_host [("simulator", "local")] in
  enumerate_devices (env (initial 0%nat)) = (Ok [("simulator", "local")], 1%nat) /\
  filter (fun d => (dev_type d =? device_type)%string) [("simulator", "local")] = [] /\
  FINISHED (initial 0%nat) = false /\
  get_usb_iphone 5 (initial 0%nat) =
    (Asleep,
     {| FILE_DICT := []; FINISHED := false;
        stdout := ["Waiting for USB device..."];
        bars := []; trace := []; env := 1%nat |}).
Proof.
  intros E H. repeat (split; [reflexivity|]).
  exact (get_usb_iphone_sleeps (E := E) (H := H) 4 (initial 0%nat) _ 1%nat
           eq_refl eq_refl eq_refl).
Defined.

(** ** The counter of the bar of [progress] *)

(** While no report closes the transfer, the counter of the bar and the
    baseline move together. *)
Lemma progress_all_partial (rs : list report) (c : closure) :
  Forall partial_report rs ->
  n (t (progress_all rs c)) - last_sent (progress_all rs c) = n (t c) - last_sent c.
Proof.
  revert c. induction rs as [|[[f size] sent] rs IH]; intros c Hp; [reflexivity|].
  inversion Hp as [|r rs' Hr Hrs]; subst. cbn [progress_all].
  rewrite IH by exact Hrs. unfold partial_report in Hr. cbn [fst snd] in Hr.
  unfold progress. cbn [t n last_sent tqdm_update set_total set_desc].
  destruct (Z.eqb_spec size sent); [contradiction | lia].
Qed.

(** X27: over one transfer, reported by any number of partial reports
    and a closing one, [progress] advances the counter of the bar by the
    size of the file, less the baseline it started from: by exactly the
    size from a fresh or reset baseline. *)
Theorem progress_complete_transfer (rs : list report) (f : string) (size : Z)
        (c : closure) :
  Forall partial_report rs ->
  n (t (progress_all (rs ++ [(f, size, size)]) c)) = n (t c) + size - last_sent c.
Proof.
  intros Hp. rewrite progress_all_app. cbn [progress_all].
  pose proof (progress_all_partial rs c Hp) as Hinv.
  unfold progress. cbn [t n tqdm_update set_total set_desc]. lia.
Qed.

Lemma progress_complete_transfer_witness :
  let rs := [("Foo", 10, 0); ("Foo", 10, 4); ("Foo", 10, 9)] in
  let c := {| t := tqdm_new; last_sent := 0 |} in
  Forall partial_report rs /\
  n (t (progress_all (rs ++ [("Foo", 10, 10)]) c)) = 10.
Proof.
  intros rs c.
  assert (Hp : Forall partial_report rs)
    by (repeat constructor; unfold partial_report; cbn; lia).
  split; [exact Hp|].
  exact (progress_complete_transfer rs "Foo" 10 c Hp).
Defined.
